(** * Phoenix-vNext cardinality observer: a shallow embedding

    This development embeds [PhoenixCardinalityObserver] of
    [phoenix-bench/legacy/phoenix-cardinality-observer.py] (the class is
    repeated verbatim in [phoenix-bench/phoenix-toolkit.py]) and states the
    properties of the adaptive cardinality control loop over it.

    Modelling conventions.
    - Python [int] is [Z]; [len(...)] results are injected into [Z].
    - the observer is embedded twice.  [Binary64] and [Observer64] follow
      the source on binary64 numbers, with the exceptions Python raises
      ([int] of a NaN or an infinity, division by zero, [time.sleep] of a
      negative length); what is said of the value of a level and of the fate
      of the process is said of them.  The embedding at the top level takes
      the thresholds as exact rationals [Q]: the comparisons [int <= float]
      are exact in Python and exact there, and it carries what depends on
      the tier and on the order of the levels only.  The two are compared by
      evaluation on the thresholds of the examples.
    - [int(x)] truncates toward zero: [Z.quot] of numerator by denominator.
    - text is [string] (a sequence of bytes); the separators the source
      splits on are ASCII, so splitting bytes and splitting code points agree.
    - [set()] is a [gset string].
    - the two files the observer touches are a record of optional contents;
      the environment's failures are an explicit fault carried by each call.
    - wall-clock time is an input: whole seconds since the epoch. *)

From Stdlib Require Import ZArith QArith Qround Lqa String Ascii List Lia.
From Stdlib Require Import Floats Uint63.
From stdpp Require Import gmap strings list pretty.

Local Open Scope Z_scope.

(** ** Data model *)

(** The strings ["moderate"], ["adaptive"], ["ultra"] the classifier returns. *)
Inductive Mode : Type := moderate | adaptive | ultra.

#[global] Instance Mode_eq_dec : EqDecision Mode.
Proof. solve_decision. Defined.

Definition mode_name (m : Mode) : string :=
  match m with
  | moderate => "moderate"
  | adaptive => "adaptive"
  | ultra => "ultra"
  end.

(** [self.thresholds]: a dict with the three float entries. *)
Record Thresholds : Type := mkThresholds {
  th_moderate : Q;
  th_adaptive : Q;
  th_ultra : Q
}.

(** The default of [__init__] and of the command line. *)
Definition default_thresholds : Thresholds :=
  {| th_moderate := 300; th_adaptive := 375; th_ultra := 450 |}.

(** [moderate < adaptive < ultra], the ordering the specification expects. *)
Definition strictly_ordered (th : Thresholds) : Prop :=
  (th_moderate th < th_adaptive th)%Q /\ (th_adaptive th < th_ultra th)%Q.

(** ** ModeClassifier: [determine_optimization_mode] *)

(** Python's [int(x)] on a float: truncation toward zero. *)
Definition int_of_float (q : Q) : Z := Z.quot (Qnum q) (Z.pos (Qden q)).

(** The unclamped level of the adaptive tier:
    [26 + (position / range_size) * 49]. *)
Definition adaptive_scale (th : Thresholds) (cardinality_count : Z) : Q :=
  let range_size := (th_adaptive th - th_moderate th)%Q in
  let position := (inject_Z cardinality_count - th_moderate th)%Q in
  (26 + (position / range_size) * 49)%Q.

(** The unclamped level of the ultra tier:
    [76 + (excess / max_excess) * 24]. *)
Definition ultra_scale (th : Thresholds) (cardinality_count : Z) : Q :=
  let excess := (inject_Z cardinality_count - th_adaptive th)%Q in
  let max_excess := (th_ultra th - th_adaptive th)%Q in
  (76 + (excess / max_excess) * 24)%Q.

Definition determine_optimization_mode (th : Thresholds) (cardinality_count : Z)
  : Mode * Z :=
  if Qle_bool (inject_Z cardinality_count) (th_moderate th) then
    (moderate, 0)
  else if Qle_bool (inject_Z cardinality_count) (th_adaptive th) then
    let opt_level := int_of_float (adaptive_scale th cardinality_count) in
    (adaptive, Z.min 75 (Z.max 26 opt_level))
  else
    let excess := (inject_Z cardinality_count - th_adaptive th)%Q in
    let max_excess := (th_ultra th - th_adaptive th)%Q in
    if Qle_bool max_excess excess then
      (ultra, 100)
    else
      let opt_level := int_of_float (ultra_scale th cardinality_count) in
      (ultra, Z.min 100 (Z.max 76 opt_level)).

(** The exceptions that can leave the code embedded here. *)
Inductive PyError : Type :=
  | ValueError
  | OverflowError
  | ZeroDivisionError.

(** A computation either returns a value or raises. *)
Inductive PyResult (A : Type) : Type :=
  | Return (value : A)
  | Raise (error : PyError).

Arguments Return {A} value.
Arguments Raise {A} error.

(** The classifier on binary64 numbers, as Python computes it.  The count
    is converted to a float where the source subtracts a float from it or
    compares it with one; the conversion is exact below [2^53], which covers
    every [len()] of a scrape, so that the comparisons are the exact ones
    of Python. *)
Module Binary64.

Record Thresholds : Type := mkThresholds {
  th_moderate : float;
  th_adaptive : float;
  th_ultra : float
}.

(** The default of [__init__] and of the command line. *)
Definition default_thresholds : Thresholds :=
  {| th_moderate := 300; th_adaptive := 375; th_ultra := 450 |}.

Definition of_count (cardinality_count : Z) : float :=
  PrimFloat.of_uint63 (Uint63.of_Z cardinality_count).

(** [int(x)]: truncation toward zero; [ValueError] on a NaN and
    [OverflowError] on an infinity. *)
Definition int_of_float (x : float) : PyResult Z :=
  match Prim2SF x with
  | S754_zero _ => Return 0
  | S754_finite negative m e =>
      let magnitude :=
        if 0 <=? e then Z.pos m * 2 ^ e else Z.pos m / 2 ^ (- e) in
      Return (if negative then - magnitude else magnitude)
  | S754_infinity _ => Raise OverflowError
  | S754_nan => Raise ValueError
  end.

(** [x / y] on floats: [ZeroDivisionError] when [y] is zero. *)
Definition py_div (x y : float) : PyResult float :=
  if PrimFloat.eqb y 0 then Raise ZeroDivisionError else Return (x / y)%float.

(** [26 + (position / range_size) * 49] and [76 + (excess / max_excess) * 24]
    once the division has returned. *)
Definition adaptive_scale (ratio : float) : float := (26 + ratio * 49)%float.

Definition ultra_scale (ratio : float) : float := (76 + ratio * 24)%float.

Definition determine_optimization_mode (th : Thresholds) (cardinality_count : Z)
  : PyResult (Mode * Z) :=
  let count := of_count cardinality_count in
  if PrimFloat.leb count (th_moderate th) then
    Return (moderate, 0)
  else if PrimFloat.leb count (th_adaptive th) then
    let range_size := (th_adaptive th - th_moderate th)%float in
    let position := (count - th_moderate th)%float in
    match py_div position range_size with
    | Raise error => Raise error
    | Return ratio =>
        match int_of_float (adaptive_scale ratio) with
        | Raise error => Raise error
        | Return opt_level => Return (adaptive, Z.min 75 (Z.max 26 opt_level))
        end
    end
  else
    let excess := (count - th_adaptive th)%float in
    let max_excess := (th_ultra th - th_adaptive th)%float in
    if PrimFloat.leb max_excess excess then
      Return (ultra, 100)
    else
      match py_div excess max_excess with
      | Raise error => Raise error
      | Return ratio =>
          match int_of_float (ultra_scale ratio) with
          | Raise error => Raise error
          | Return opt_level => Return (ultra, Z.min 100 (Z.max 76 opt_level))
          end
      end.

End Binary64.

(** Whether the exact model and the binary64 one give the same result at
    every count of [first, first + 1, ..., first + n - 1]. *)
Definition binary64_agrees (th : Thresholds) (m a u : float) (first : Z) (n : nat)
  : bool :=
  forallb
    (fun k =>
       let c := first + Z.of_nat k in
       let '(mode_q, level_q) := determine_optimization_mode th c in
       match Binary64.determine_optimization_mode
               {| Binary64.th_moderate := m; Binary64.th_adaptive := a;
                  Binary64.th_ultra := u |} c with
       | Return (mode_f, level_f) =>
           bool_decide (mode_q = mode_f) && (level_q =? level_f)
       | Raise _ => false
       end)
    (List.seq 0 n).




(** ** CardinalityEstimator: [get_cardinality_metrics] *)

(** [s.split(sep)] for a separator of one character: never empty, and
    [n] occurrences of [sep] give [n + 1] pieces. *)
Fixpoint split (sep : ascii) (s : string) : list string :=
  match s with
  | EmptyString => [EmptyString]
  | String c rest =>
      if Ascii.eqb c sep then EmptyString :: split sep rest
      else match split sep rest with
           | piece :: pieces => String c piece :: pieces
           | [] => [String c EmptyString]
           end
  end.

(** [c in s] for a single character. *)
Fixpoint contains (c : ascii) (s : string) : bool :=
  match s with
  | EmptyString => false
  | String d rest => Ascii.eqb d c || contains c rest
  end.

(** [s.startswith(p)]. *)
Definition startswith (p s : string) : bool := String.prefix p s.

Definition newline : ascii := "010"%char.

(** The list comprehension that selects the monitored lines. *)
Definition qualifies (line : string) : bool :=
  startswith "phoenix_" line && negb (startswith "#" line).

Definition phoenix_metrics (metrics_text : string) : list string :=
  List.filter qualifies (split newline metrics_text).

(** The key one line adds to [unique_series].  List indexing raises
    [IndexError] out of range: [None] here. *)
Definition series_key (metric_line : string) : option string :=
  if contains "{" metric_line then
    metric_name ← split "{" metric_line !! 0%nat;
    after_brace ← split "{" metric_line !! 1%nat;
    labels_part ← split "}" after_brace !! 0%nat;
    Some (metric_name +:+ "#" +:+ labels_part)
  else
    split " " metric_line !! 0%nat.

(** The [for] loop over [phoenix_metrics], threading the set. *)
Fixpoint collect_series (lines : list string) (unique_series : gset string)
  : option (gset string) :=
  match lines with
  | [] => Some unique_series
  | metric_line :: rest =>
      key ← series_key metric_line;
      collect_series rest ({[ key ]} ∪ unique_series)
  end.

(** The dict [get_cardinality_metrics] returns. *)
Record CardinalityData : Type := mkCardinalityData {
  cardinality_count : Z;
  total_metrics : Z;
  timestamp : Z;
  sample_metrics : list string
}.

(** [response] is [None] when [requests.get] or [raise_for_status] raises,
    and the body text otherwise.  Every exception ends in [return None].
    The order in which Python lists a set is unspecified; [sample_metrics]
    takes the first five in the order of [elements]. *)
Definition get_cardinality_metrics (response : option string) (now : Z)
  : option CardinalityData :=
  metrics_text ← response;
  unique_series ← collect_series (phoenix_metrics metrics_text) ∅;
  Some {| cardinality_count := Z.of_nat (size unique_series);
          total_metrics := Z.of_nat (length (phoenix_metrics metrics_text));
          timestamp := now;
          sample_metrics := take 5 (elements unique_series) |}.

(** ** SignalGenerator: [generate_control_signal] *)

(** The observer object: the fields [__init__] sets. *)
Record Observer : Type := mkObserver {
  main_collector_url : string;
  control_file_path : string;
  running : bool;
  thresholds : Thresholds;
  current_mode : Mode;
  last_cardinality_count : Z;
  mode_change_count : Z
}.

(** [__init__]: [thresholds or {...}] falls back to the default dict. *)
Definition new_observer (url path : string) (th : option Thresholds) : Observer :=
  {| main_collector_url := url;
     control_file_path := path;
     running := false;
     thresholds := default default_thresholds th;
     current_mode := moderate;
     last_cardinality_count := 0;
     mode_change_count := 0 |}.

(** The ["state"] entry of a control signal. *)
Record SignalState : Type := mkSignalState {
  previous_mode : Mode;
  transition_timestamp : Z;
  transition_duration_seconds : Z;
  stability_period_seconds : Z;
  mode_changes_total : Z
}.

(** The ["observer_metadata"]["cardinality_analysis"] entry.  The source
    renders [reduction_potential] as text with the suffix [" series"]; the
    number is kept here. *)
Record CardinalityAnalysis : Type := mkCardinalityAnalysis {
  total_phoenix_metrics : Z;
  unique_time_series : Z;
  reduction_potential : Q;
  analysis_sample_metrics : list string
}.

(** The control signal dict.  [last_updated] and [transition_timestamp]
    hold the time itself instead of its ISO-8601 rendering. *)
Record ControlSignal : Type := mkControlSignal {
  mode : Mode;
  last_updated : Z;
  reason : string;
  ts_count : Z;
  config_version : Z;
  correlation_id : string;
  optimization_level : Z;
  signal_thresholds : Thresholds;
  state : SignalState;
  cardinality_analysis : CardinalityAnalysis
}.

(** The method mutates [self]; the new object is returned with the result. *)
Definition generate_control_signal (now : Z) (self : Observer)
    (cardinality_data : CardinalityData) : option ControlSignal * Observer :=
  let cardinality_count := cardinality_count cardinality_data in
  let '(new_mode, optimization_level) :=
    determine_optimization_mode (thresholds self) cardinality_count in
  let cardinality_change := Z.abs (cardinality_count - last_cardinality_count self) in
  let significant_change := 50 <? cardinality_change in
  if negb (bool_decide (new_mode = current_mode self)) || significant_change then
    let correlation_id := "observer-" +:+ pretty now in
    let '(reason, mode_change_count) :=
      if negb (bool_decide (new_mode = current_mode self)) then
        ("Mode change: " +:+ mode_name (current_mode self) +:+ " → "
           +:+ mode_name new_mode +:+ " (cardinality: "
           +:+ pretty cardinality_count +:+ ")",
         mode_change_count self + 1)
      else
        ("Cardinality update: " +:+ pretty cardinality_count
           +:+ " series (change: +" +:+ pretty cardinality_change +:+ ")",
         mode_change_count self) in
    let position := (inject_Z cardinality_count - th_moderate (thresholds self))%Q in
    let control_signal :=
      {| mode := new_mode;
         last_updated := now;
         reason := reason;
         ts_count := cardinality_count;
         config_version := now;
         correlation_id := correlation_id;
         optimization_level := optimization_level;
         signal_thresholds := thresholds self;
         state :=
           {| previous_mode := current_mode self;
              transition_timestamp := now;
              transition_duration_seconds := 0;
              stability_period_seconds := 300;
              mode_changes_total := mode_change_count |};
         cardinality_analysis :=
           {| total_phoenix_metrics := total_metrics cardinality_data;
              unique_time_series := cardinality_count;
              reduction_potential :=
                if Qle_bool position 0 then 0%Q else position;
              analysis_sample_metrics := sample_metrics cardinality_data |} |} in
    (Some control_signal,
     {| main_collector_url := main_collector_url self;
        control_file_path := control_file_path self;
        running := running self;
        thresholds := thresholds self;
        current_mode := new_mode;
        last_cardinality_count := cardinality_count;
        mode_change_count := mode_change_count |})
  else
    (None, self).

(** The generator run over a sequence of samples, collecting what each
    invocation returned. *)
Fixpoint generate_all (self : Observer) (samples : list (Z * CardinalityData))
  : list (option ControlSignal) * Observer :=
  match samples with
  | [] => ([], self)
  | (now, cardinality_data) :: rest =>
      let '(signal, self1) := generate_control_signal now self cardinality_data in
      let '(signals, self2) := generate_all self1 rest in
      (signal :: signals, self2)
  end.

(** Whether an invocation is a mode transition: the classified mode differs
    from the mode the observer holds. *)
Definition is_mode_transition (self : Observer) (cardinality_data : CardinalityData)
  : bool :=
  negb (bool_decide
          (fst (determine_optimization_mode (thresholds self)
                  (cardinality_count cardinality_data)) = current_mode self)).

(** The number of mode transitions met while the generator runs over the
    samples. *)
Fixpoint count_transitions (self : Observer) (samples : list (Z * CardinalityData))
  : Z :=
  match samples with
  | [] => 0
  | (now, cardinality_data) :: rest =>
      (if is_mode_transition self cardinality_data then 1 else 0)
      + count_transitions (snd (generate_control_signal now self cardinality_data)) rest
  end.

(** ** SignalStore: [write_control_signal] *)

(** What a file holds: text that was there before the observer ran, the
    YAML dump of a signal, or the remains of a write that did not complete
    (the file was opened with mode ['w'], which empties it, and the write
    raised). *)
Inductive FileContent : Type :=
  | RawText (text : string)
  | YamlDump (control_signal : ControlSignal)
  | Incomplete.

(** The two paths of the store: [control_file_path] and the same path with
    [".backup"] appended.  [None] is a path that does not exist. *)
Record FileSystem : Type := mkFileSystem {
  control_file : option FileContent;
  backup_file : option FileContent
}.

(** The step of one call of [write_control_signal] at which the environment
    raises, if any.  A fault whose step is not reached has no effect. *)
Inductive Fault : Type :=
  | NoFault
  | OpenSourceFails     (* open(control_file_path, 'r') *)
  | OpenBackupFails     (* open(backup_path, 'w') *)
  | ReadSourceFails     (* src.read() *)
  | WriteBackupFails    (* dst.write(...) *)
  | OpenControlFails    (* open(control_file_path, 'w') *)
  | DumpFails.          (* yaml.dump(...) *)

(** What the observer prints, by kind of message. *)
Inductive LogEvent : Type :=
  | LogStarting
  | LogIteration (iteration : Z)
  | LogFetchError
  | LogCurrentCardinality (cardinality_count total_metrics : Z)
  | LogGeneratingSignal (shown_mode signal_mode : Mode) (level : Z) (reason : string)
  | LogSignalWritten (signal_mode : Mode) (ts_count level : Z)
  | LogWriteError
  | LogWriteSucceeded
  | LogWriteFailed
  | LogNoModeChange (shown_mode : Mode)
  | LogStatus (tier : Mode) (classified : Mode) (level : Z)
  | LogStoppingObserver.

(** A block of statements either completes or raises; both leave a file
    system behind. *)
Inductive Completion : Type :=
  | Completed (fs : FileSystem)
  | Raised (fs : FileSystem).

(** The [# Create backup] block. *)
Definition create_backup (fault : Fault) (fs : FileSystem) : Completion :=
  match control_file fs with
  | None => Completed fs
  | Some previous =>
      match fault with
      | OpenSourceFails | OpenBackupFails => Raised fs
      | ReadSourceFails | WriteBackupFails =>
          Raised {| control_file := control_file fs; backup_file := Some Incomplete |}
      | NoFault | OpenControlFails | DumpFails =>
          Completed {| control_file := control_file fs; backup_file := Some previous |}
      end
  end.

(** The [# Write new control signal] block. *)
Definition write_new_signal (fault : Fault) (fs : FileSystem)
    (control_signal : ControlSignal) : Completion :=
  match fault with
  | OpenControlFails => Raised fs
  | DumpFails =>
      Raised {| control_file := Some Incomplete; backup_file := backup_file fs |}
  | _ =>
      Completed {| control_file := Some (YamlDump control_signal);
                   backup_file := backup_file fs |}
  end.

(** One [try] block holds both steps; its [except] prints and returns
    [False]. *)
Definition write_control_signal (fault : Fault) (fs : FileSystem)
    (control_signal : ControlSignal) : bool * FileSystem * list LogEvent :=
  match create_backup fault fs with
  | Raised fs1 => (false, fs1, [LogWriteError])
  | Completed fs1 =>
      match write_new_signal fault fs1 control_signal with
      | Raised fs2 => (false, fs2, [LogWriteError])
      | Completed fs2 =>
          (true, fs2,
           [LogSignalWritten (mode control_signal) (ts_count control_signal)
              (optimization_level control_signal)])
      end
  end.

(** The faults that strike inside the backup block. *)
Definition backup_fault (fault : Fault) : bool :=
  match fault with
  | OpenSourceFails | OpenBackupFails | ReadSourceFails | WriteBackupFails => true
  | _ => false
  end.

(** The faults that strike while the new signal is written. *)
Definition main_fault (fault : Fault) : bool :=
  match fault with
  | OpenControlFails | DumpFails => true
  | _ => false
  end.

(** ** ControlLoop: [run_observer] *)

(** What the environment supplies to one iteration of the loop. *)
Record CycleInput : Type := mkCycleInput {
  response : option string;
  now : Z;
  fault : Fault
}.

(** The state an iteration starts from and ends in. *)
Record LoopState : Type := mkLoopState {
  observer : Observer;
  file_system : FileSystem;
  iteration : Z
}.

(** The tier shown in the threshold analysis at the end of an iteration. *)
Definition status_tier (th : Thresholds) (cardinality_count : Z) : Mode :=
  if Qle_bool (inject_Z cardinality_count) (th_moderate th) then moderate
  else if Qle_bool (inject_Z cardinality_count) (th_adaptive th) then adaptive
  else ultra.

(** The body of the [while self.running] loop. *)
Definition observer_cycle (input : CycleInput) (st : LoopState)
  : LoopState * list LogEvent :=
  let iteration := iteration st + 1 in
  match get_cardinality_metrics (response input) (now input) with
  | None =>
      ({| observer := observer st; file_system := file_system st;
          iteration := iteration |},
       [LogIteration iteration; LogFetchError])
  | Some cardinality_data =>
      let cardinality_count := cardinality_count cardinality_data in
      let '(control_signal, self) :=
        generate_control_signal (now input) (observer st) cardinality_data in
      let '(fs, decision_log) :=
        match control_signal with
        | Some control_signal =>
            let '(success, fs, write_log) :=
              write_control_signal (fault input) (file_system st) control_signal in
            (fs,
             [LogGeneratingSignal (current_mode self) (mode control_signal)
                (optimization_level control_signal) (reason control_signal)]
             ++ write_log
             ++ [if success then LogWriteSucceeded else LogWriteFailed])
        | None => (file_system st, [LogNoModeChange (current_mode self)])
        end in
      let '(classified, opt_level) :=
        determine_optimization_mode (thresholds self) cardinality_count in
      ({| observer := self; file_system := fs; iteration := iteration |},
       [LogIteration iteration;
        LogCurrentCardinality cardinality_count (total_metrics cardinality_data)]
       ++ decision_log
       ++ [LogStatus (status_tier (thresholds self) cardinality_count)
             classified opt_level])
  end.

(** The loop runs one iteration per input; the input running out stands for
    the interruption that ends the process. *)
Fixpoint run_cycles (inputs : list CycleInput) (st : LoopState)
  : LoopState * list LogEvent :=
  match inputs with
  | [] => (st, [])
  | input :: rest =>
      let '(st1, log1) := observer_cycle input st in
      let '(st2, log2) := run_cycles rest st1 in
      (st2, log1 ++ log2)
  end.

Definition set_running (flag : bool) (self : Observer) : Observer :=
  {| main_collector_url := main_collector_url self;
     control_file_path := control_file_path self;
     running := flag;
     thresholds := thresholds self;
     current_mode := current_mode self;
     last_cardinality_count := last_cardinality_count self;
     mode_change_count := mode_change_count self |}.

Definition run_observer (self : Observer) (fs : FileSystem)
    (inputs : list CycleInput) : LoopState * list LogEvent :=
  let '(st, log) :=
    run_cycles inputs
      {| observer := set_running true self; file_system := fs; iteration := 0 |} in
  (st, LogStarting :: log).

(** ** Counting the iterations *)

(** The number of iterations of the loop a log records. *)
Definition cycles_run (log : list LogEvent) : nat :=
  length (List.filter (fun e => match e with LogIteration _ => true | _ => false end) log).

(** ** Concrete inputs for the examples *)

Definition example_observer : Observer :=
  new_observer "http://localhost:8888/metrics"
    "configs/control_signals/opt_mode.yaml" None.

Definition example_sample (count : Z) : CardinalityData :=
  {| cardinality_count := count; total_metrics := count;
     timestamp := 1700000000; sample_metrics := [] |}.

(** The signal the observer builds from its initial state at count 400. *)
Definition example_signal : ControlSignal :=
  {| mode := ultra;
     last_updated := 1700000000;
     reason := "Mode change: moderate → ultra (cardinality: 400)";
     ts_count := 400;
     config_version := 1700000000;
     correlation_id := "observer-1700000000";
     optimization_level := 84;
     signal_thresholds := default_thresholds;
     state :=
       {| previous_mode := moderate;
          transition_timestamp := 1700000000;
          transition_duration_seconds := 0;
          stability_period_seconds := 300;
          mode_changes_total := 1 |};
     cardinality_analysis :=
       {| total_phoenix_metrics := 400;
          unique_time_series := 400;
          reduction_potential := 100;
          analysis_sample_metrics := [] |} |}.

(** A store that already holds a signal file and has no backup yet. *)
Definition example_store : FileSystem :=
  {| control_file := Some (RawText "mode: moderate");
     backup_file := None |}.

Definition empty_store : FileSystem :=
  {| control_file := None; backup_file := None |}.

(** A scrape with two series of the monitored namespace. *)
Definition two_series_text : string :=
  "# HELP phoenix_a a" +:+ String newline
    ("phoenix_a 1" +:+ String newline "phoenix_b{job=x} 2").

(** Thresholds low enough for [two_series_text] to leave the moderate
    tier. *)
Definition low_thresholds : Thresholds :=
  {| th_moderate := 1; th_adaptive := 2; th_ultra := 3 |}.

(** The loop as it starts with [low_thresholds] and no file on disk. *)
Definition low_state : LoopState :=
  {| observer :=
       set_running true
         (new_observer "http://localhost:8888/metrics"
            "configs/control_signals/opt_mode.yaml" (Some low_thresholds));
     file_system := empty_store;
     iteration := 0 |}.

(** A cycle that scrapes [two_series_text] while the signal file cannot be
    opened for writing, and the following cycle, with the same scrape and a
    healthy file system. *)
Definition failing_input : CycleInput :=
  {| response := Some two_series_text; now := 1700000000;
     fault := OpenControlFails |}.

Definition retry_input : CycleInput :=
  {| response := Some two_series_text; now := 1700000030; fault := NoFault |}.

(** The sample of the first of these cycles, and what the generator makes
    of it. *)
Definition two_series_sample : CardinalityData :=
  Eval vm_compute in
    default (example_sample 0)
      (get_cardinality_metrics (response failing_input) (now failing_input)).

Definition retry_sample : CardinalityData :=
  Eval vm_compute in
    default (example_sample 0)
      (get_cardinality_metrics (response retry_input) (now retry_input)).

Definition low_generated : option ControlSignal * Observer :=
  Eval vm_compute in
    generate_control_signal (now failing_input) (observer low_state)
      two_series_sample.

Definition low_signal : ControlSignal :=
  default example_signal (fst low_generated).

(** The signal the generator builds in [retry_input]'s cycle when it starts
    from [low_state]. *)
Definition retry_generated : option ControlSignal * Observer :=
  Eval vm_compute in
    generate_control_signal (now retry_input) (observer low_state) retry_sample.

Definition retry_signal : ControlSignal :=
  default example_signal (fst retry_generated).

(** A line of the monitored namespace whose label block is never closed. *)
Definition unclosed_line : string := "phoenix_x{a=1 7".

(** ** The classifier with the exceptions of Python's division *)

(** [x / y] on floats raises [ZeroDivisionError] when [y] is zero. *)
Definition py_div (x y : Q) : option Q :=
  if Qeq_bool y 0 then None else Some (x / y)%Q.


(** ** Predicates on the observer and the loop *)

(** The mode the observer holds is the classification of the count it
    holds. *)
Definition mode_consistent (self : Observer) : Prop :=
  current_mode self
  = fst (determine_optimization_mode (thresholds self)
           (last_cardinality_count self)).

(** A sample the observer has no reason to report: same mode, and at most
    50 away from the count of the last emission. *)
Definition within_band (self : Observer) (cardinality_data : CardinalityData)
  : Prop :=
  fst (determine_optimization_mode (thresholds self)
         (cardinality_count cardinality_data)) = current_mode self
  /\ Z.abs (cardinality_count cardinality_data - last_cardinality_count self)
     <= 50.

(** The number of signals among the results of a run of the generator. *)
Definition emitted (signals : list (option ControlSignal)) : nat :=
  length (omap id signals).

(** The signal file holds the dump of a signal that agrees with the mode
    and the count the observer holds. *)
Definition synced (st : LoopState) : Prop :=
  exists control_signal,
    control_file (file_system st) = Some (YamlDump control_signal)
    /\ mode control_signal = current_mode (observer st)
    /\ ts_count control_signal = last_cardinality_count (observer st).

(** ** PhoenixMetricsGenerator of [phoenix-toolkit.py] *)

(** A metric value: Python [int] or [float]. *)
Inductive Number : Type :=
  | IntValue (z : Z)
  | FloatValue (q : Q).

(** The dict the generator builds for one metric.  [labels] keeps the
    insertion order of the dict; all label values are strings. *)
Record Metric : Type := mkMetric {
  metric_name : string;
  metric_type : string;
  metric_value : Number;
  metric_timestamp : Z;
  metric_labels : list (string * string)
}.

(** [f"{i:04d}"]-style padding with zeros on the left. *)
Definition zero_pad (width : nat) (digits : string) : string :=
  String.concat "" (replicate (width - String.length digits) "0") +:+ digits.

(** The dimension lists of [__init__]. *)
Record MetricsGenerator : Type := mkMetricsGenerator {
  generator_url : string;
  services : list string;
  environments : list string;
  regions : list string;
  instance_types : list string;
  endpoints : list string;
  users : list string;
  request_types : list string;
  status_codes : list string
}.

Definition new_generator (collector_url : string) : MetricsGenerator :=
  {| generator_url := collector_url;
     services := List.map (fun i => "service-" +:+ pretty i) (seqZ 1 20);
     environments := ["prod"; "staging"; "dev"; "test"];
     regions := ["us-east-1"; "us-west-2"; "eu-west-1"; "ap-southeast-1"];
     instance_types := ["t3.micro"; "t3.small"; "t3.medium"; "m5.large"; "c5.xlarge"];
     endpoints :=
       List.flat_map
         (fun v => List.map
                     (fun i => "/api/v" +:+ pretty v +:+ "/endpoint-" +:+ pretty i)
                     (seqZ 1 25))
         [1; 2; 3];
     users := List.map (fun i => "user-" +:+ zero_pad 4 (pretty i)) (seqZ 1 500);
     request_types := ["GET"; "POST"; "PUT"; "DELETE"; "PATCH"];
     status_codes := ["200"; "201"; "400"; "401"; "403"; "404"; "500"; "502"; "503"] |}.

(** The state of the module [random], as the sequence of its future draws.
    Every result a call can give is given by some tape. *)
Definition Tape : Type := list nat.

Definition draw (tape : Tape) : nat * Tape :=
  match tape with
  | [] => (0%nat, [])
  | n :: rest => (n, rest)
  end.

(** [random.choice(xs)] on a list that is not empty. *)
Definition choice (xs : list string) (tape : Tape) : string * Tape :=
  let '(n, tape) := draw tape in
  (nth (n mod length xs) xs EmptyString, tape).

(** [random.randint(a, b)]. *)
Definition randint (a b : Z) (tape : Tape) : Z * Tape :=
  let '(n, tape) := draw tape in
  (a + Z.of_nat n mod (b - a + 1), tape).

(** [random.uniform(a, b)]. *)
Definition uniform (a b : Q) (tape : Tape) : Q * Tape :=
  let '(n, tape) := draw tape in
  ((a + (b - a) * (Z.of_nat (n mod 1001) # 1000))%Q, tape).

(** The body of the loop of the request metrics: one counter and one
    histogram that share their labels.  The draws are made in the order of
    the source. *)
Definition request_metrics (g : MetricsGenerator) (timestamp : Z) (tape : Tape)
  : list Metric * Tape :=
  let '(service, tape) := choice (services g) tape in
  let '(endpoint, tape) := choice (endpoints g) tape in
  let '(method, tape) := choice (request_types g) tape in
  let '(status, tape) := choice (status_codes g) tape in
  let '(env, tape) := choice (environments g) tape in
  let '(region, tape) := choice (regions g) tape in
  let '(requests, tape) := randint 1 100 tape in
  let '(duration, tape) := uniform (1 # 1000) 2 tape in
  ([ {| metric_name := "phoenix_http_requests_total";
        metric_type := "counter";
        metric_value := IntValue requests;
        metric_timestamp := timestamp;
        metric_labels :=
          [("service", service); ("endpoint", endpoint); ("method", method);
           ("status_code", status); ("environment", env); ("region", region);
           ("benchmark_id", "phoenix-vnext")] |};
     {| metric_name := "phoenix_http_request_duration_seconds";
        metric_type := "histogram";
        metric_value := FloatValue duration;
        metric_timestamp := timestamp;
        metric_labels :=
          [("service", service); ("endpoint", endpoint); ("method", method);
           ("environment", env); ("region", region);
           ("benchmark_id", "phoenix-vnext")] |} ],
   tape).

(** The body of the loop of the user activity metrics. *)
Definition user_activity_metrics (g : MetricsGenerator) (timestamp : Z)
    (tape : Tape) : list Metric * Tape :=
  let '(user, tape) := choice (users g) tape in
  let '(service, tape) := choice (services g) tape in
  let '(action, tape) :=
    choice ["login"; "logout"; "purchase"; "view"; "search"; "click"] tape in
  let '(activity, tape) := randint 1 10 tape in
  let '(env, tape) := choice (environments g) tape in
  ([ {| metric_name := "phoenix_user_activity_total";
        metric_type := "counter";
        metric_value := IntValue activity;
        metric_timestamp := timestamp;
        metric_labels :=
          [("user_id", user); ("service", service); ("action", action);
           ("environment", env); ("benchmark_id", "phoenix-vnext")] |} ],
   tape).

(** The body of the loop of the system metrics: two gauges. *)
Definition system_metrics (g : MetricsGenerator) (timestamp : Z) (tape : Tape)
  : list Metric * Tape :=
  let '(instance_type, tape) := choice (instance_types g) tape in
  let '(service, tape) := choice (services g) tape in
  let '(region, tape) := choice (regions g) tape in
  let '(cpu, tape) := uniform 0 100 tape in
  let '(cpu_env, tape) := choice (environments g) tape in
  let '(memory, tape) := randint 1000000 8000000000 tape in
  let '(memory_env, tape) := choice (environments g) tape in
  ([ {| metric_name := "phoenix_system_cpu_usage_percent";
        metric_type := "gauge";
        metric_value := FloatValue cpu;
        metric_timestamp := timestamp;
        metric_labels :=
          [("instance_type", instance_type); ("service", service);
           ("region", region); ("environment", cpu_env);
           ("benchmark_id", "phoenix-vnext")] |};
     {| metric_name := "phoenix_system_memory_usage_bytes";
        metric_type := "gauge";
        metric_value := IntValue memory;
        metric_timestamp := timestamp;
        metric_labels :=
          [("instance_type", instance_type); ("service", service);
           ("region", region); ("environment", memory_env);
           ("benchmark_id", "phoenix-vnext")] |} ],
   tape).

(** The body of the loop of the business metrics. *)
Definition business_metrics (g : MetricsGenerator) (timestamp : Z) (tape : Tape)
  : list Metric * Tape :=
  let '(service, tape) := choice (services g) tape in
  let '(feature, tape) :=
    choice ["checkout"; "search"; "recommendation"; "payment"; "notification"]
      tape in
  let '(usage, tape) := randint 1 1000 tape in
  let '(env, tape) := choice (environments g) tape in
  let '(region, tape) := choice (regions g) tape in
  ([ {| metric_name := "phoenix_business_feature_usage_total";
        metric_type := "counter";
        metric_value := IntValue usage;
        metric_timestamp := timestamp;
        metric_labels :=
          [("service", service); ("feature", feature); ("environment", env);
           ("region", region); ("benchmark_id", "phoenix-vnext")] |} ],
   tape).

(** [for _ in range(n): ...] appending to [metrics]. *)
Fixpoint repeat_body (n : nat) (body : Tape -> list Metric * Tape) (tape : Tape)
  : list Metric * Tape :=
  match n with
  | O => ([], tape)
  | S n =>
      let '(metrics, tape) := body tape in
      let '(more, tape) := repeat_body n body tape in
      (metrics ++ more, tape)
  end.

(** [timestamp] is [int(time.time() * 1000)]. *)
Definition generate_phoenix_metrics (g : MetricsGenerator) (timestamp : Z)
    (tape : Tape) : list Metric * Tape :=
  let '(requests, tape) := repeat_body 50 (request_metrics g timestamp) tape in
  let '(activity, tape) := repeat_body 30 (user_activity_metrics g timestamp) tape in
  let '(system, tape) := repeat_body 25 (system_metrics g timestamp) tape in
  let '(business, tape) := repeat_body 20 (business_metrics g timestamp) tape in
  (requests ++ activity ++ system ++ business, tape).

(** The number of metrics of a given type in a batch. *)
Definition of_type (type : string) (metric : Metric) : bool :=
  String.eqb (metric_type metric) type.

Definition tally (select : Metric -> bool) (metrics : list Metric) : nat :=
  length (List.filter select metrics).

(** What every metric of a batch has: a name in the namespace the observer
    monitors, the time stamp of the batch and the benchmark label. *)
Definition batch_metric (timestamp : Z) (metric : Metric) : Prop :=
  qualifies (metric_name metric) = true
  /\ metric_timestamp metric = timestamp
  /\ In ("benchmark_id", "phoenix-vnext") (metric_labels metric).

(** *** [send_metrics_to_collector] *)

Inductive OtlpValue : Type :=
  | AsInt (z : Z)
  | AsDouble (q : Q).

Record DataPoint : Type := mkDataPoint {
  timeUnixNano : Z;
  point_value : OtlpValue;
  attributes : list (string * string)
}.

(** The entry that holds the data points of a metric, if it has one. *)
Inductive OtlpData : Type :=
  | OtlpSum (dataPoints : list DataPoint) (aggregationTemporality : Z)
      (isMonotonic : bool)
  | OtlpGauge (dataPoints : list DataPoint)
  | OtlpNoData.

Record OtlpMetric : Type := mkOtlpMetric {
  otlp_name : string;
  otlp_description : string;
  otlp_unit : string;
  otlp_data : OtlpData
}.

Record OtlpPayload : Type := mkOtlpPayload {
  resource_attributes : list (string * string);
  scope_name : string;
  scope_version : string;
  otlp_metrics : list OtlpMetric
}.

(** [int(value)] and [float(value)]. *)
Definition int_of_number (value : Number) : Z :=
  match value with
  | IntValue z => z
  | FloatValue q => int_of_float q
  end.

Definition float_of_number (value : Number) : Q :=
  match value with
  | IntValue z => inject_Z z
  | FloatValue q => q
  end.

(** The body of the loop that converts one metric. *)
Definition to_otlp (metric : Metric) : OtlpMetric :=
  {| otlp_name := metric_name metric;
     otlp_description := "Phoenix benchmark metric: " +:+ metric_name metric;
     otlp_unit := if String.eqb (metric_type metric) "counter" then "1" else "";
     otlp_data :=
       if String.eqb (metric_type metric) "counter" then
         OtlpSum
           [ {| timeUnixNano := metric_timestamp metric * 1000000;
                point_value := AsInt (int_of_number (metric_value metric));
                attributes := metric_labels metric |} ]
           2 true
       else if String.eqb (metric_type metric) "gauge" then
         OtlpGauge
           [ {| timeUnixNano := metric_timestamp metric * 1000000;
                point_value := AsDouble (float_of_number (metric_value metric));
                attributes := metric_labels metric |} ]
       else OtlpNoData |}.

Definition otlp_payload (metrics : list Metric) : OtlpPayload :=
  {| resource_attributes :=
       [("service.name", "phoenix-metrics-generator");
        ("service.version", "1.0.0");
        ("telemetry.sdk.name", "phoenix-vnext")];
     scope_name := "phoenix.benchmark";
     scope_version := "1.0.0";
     otlp_metrics := List.map to_otlp metrics |}.

(** What the generator prints, by kind of message. *)
Inductive GeneratorLog : Type :=
  | LogGeneratorIteration (iteration : Z)
  | LogGenerated (metrics : nat)
  | LogSent (metrics : nat)
  | LogSendRejected (status_code : Z) (text : string)
  | LogSendError
  | LogGeneratorStopped.

(** [post] is the outcome of [requests.post]: [None] when it raises, the
    status code and the body otherwise.  The payload is what is posted. *)
Definition send_metrics_to_collector (post : option (Z * string))
    (metrics : list Metric) : OtlpPayload * GeneratorLog :=
  (otlp_payload metrics,
   match post with
   | Some (status_code, text) =>
       if status_code =? 200 then LogSent (length metrics)
       else LogSendRejected status_code text
   | None => LogSendError
   end).

(** The number of data points a payload carries. *)
Definition data_points (metric : OtlpMetric) : nat :=
  match otlp_data metric with
  | OtlpSum points _ _ => length points
  | OtlpGauge points => length points
  | OtlpNoData => 0
  end.

Definition payload_data_points (payload : OtlpPayload) : nat :=
  list_sum (List.map data_points (otlp_metrics payload)).

(** *** [run_generator] *)

(** What the environment supplies to one pass of the loop: the reading of
    the clock at the test of the duration, the time stamp of the batch, the
    random draws and the outcome of the post. *)
Record GeneratorInput : Type := mkGeneratorInput {
  clock : Q;
  batch_timestamp : Z;
  tape : Tape;
  post : option (Z * string)
}.

(** [duration and (time.time() - start_time) >= duration]: a duration of
    [None] or [0] is false in Python. *)
Definition duration_reached (duration : option Z) (start_time : Q)
    (input : GeneratorInput) : bool :=
  match duration with
  | None => false
  | Some d =>
      negb (d =? 0) && Qle_bool (inject_Z d) (clock input - start_time)
  end.

(** The loop, one pass per input; the payloads are those posted.  The
    estimate of the unique series that the source prints is left out of the
    log.  The input running out stands for an interruption. *)
Fixpoint generator_passes (g : MetricsGenerator) (duration : option Z)
    (start_time : Q) (iteration : Z) (inputs : list GeneratorInput)
  : list OtlpPayload * list GeneratorLog :=
  match inputs with
  | [] => ([], [])
  | input :: rest =>
      if duration_reached duration start_time input then
        ([], [LogGeneratorStopped])
      else
        let iteration := iteration + 1 in
        let '(metrics, _) :=
          generate_phoenix_metrics g (batch_timestamp input) (tape input) in
        let '(payload, sent) := send_metrics_to_collector (post input) metrics in
        let '(payloads, log) :=
          generator_passes g duration start_time iteration rest in
        (payload :: payloads,
         [LogGeneratorIteration iteration; LogGenerated (length metrics); sent]
         ++ log)
  end.

Definition run_generator (g : MetricsGenerator) (duration : option Z)
    (start_time : Q) (inputs : list GeneratorInput)
  : list OtlpPayload * list GeneratorLog :=
  generator_passes g duration start_time 0 inputs.

(** ** PhoenixDemo of [phoenix-toolkit.py] *)

(** What [log] prints, by level. *)
Inductive DemoLog : Type :=
  | DemoInfo (message : string)
  | DemoSuccess (message : string)
  | DemoError (message : string).

(** The dict [endpoints] of [check_system_health], in its order. *)
Definition health_endpoints : list (string * string) :=
  [("Main Collector (Full)", "http://localhost:8888/metrics");
   ("Main Collector (Opt)", "http://localhost:8889/metrics");
   ("Main Collector (Ultra)", "http://localhost:8890/metrics");
   ("Observer Collector", "http://localhost:8891/metrics");
   ("Prometheus", "http://localhost:9090/-/healthy");
   ("Grafana", "http://localhost:3000/api/health")].

(** The loop of [check_system_health] over the endpoints.  [http url] is
    the status code of [requests.get(url)], or [None] when it raises; the
    text of the exception is left out of the message. *)
Fixpoint check_endpoints (http : string -> option Z)
    (endpoints : list (string * string)) (all_healthy : bool)
  : bool * list DemoLog :=
  match endpoints with
  | [] => (all_healthy, [])
  | (name, url) :: rest =>
      let '(all_healthy, line) :=
        match http url with
        | Some status_code =>
            if status_code =? 200 then
              (all_healthy, DemoSuccess (name +:+ ": Healthy"))
            else
              (false,
               DemoError (name +:+ ": Unhealthy (HTTP " +:+ pretty status_code
                            +:+ ")"))
        | None => (false, DemoError (name +:+ ": Unreachable"))
        end in
      let '(result, lines) := check_endpoints http rest all_healthy in
      (result, line :: lines)
  end.

Definition check_system_health (http : string -> option Z) : bool * list DemoLog :=
  let '(all_healthy, lines) := check_endpoints http health_endpoints true in
  (all_healthy, DemoInfo "Checking system health..." :: lines).

(** The dict [pipelines] of [get_cardinality_stats], in its order. *)
Definition stats_pipelines : list (string * string) :=
  [("full", "http://localhost:8888/metrics");
   ("opt", "http://localhost:8889/metrics");
   ("ultra", "http://localhost:8890/metrics")].

(** The number [get_cardinality_stats] stores for one pipeline.
    [response] is the status code and the text, or [None] when the request
    raises. *)
Definition pipeline_stat (response : option (Z * string)) : Z :=
  match response with
  | Some (status_code, text) =>
      if status_code =? 200 then Z.of_nat (length (phoenix_metrics text)) else 0
  | None => 0
  end.

Definition get_cardinality_stats (http : string -> option (Z * string))
  : list (string * Z) :=
  List.map (fun '(pipeline, url) => (pipeline, pipeline_stat (http url)))
    stats_pipelines.

(** ** The observer on binary64 thresholds, with the exceptions of Python *)

(** The observer again, with the thresholds as the floats the command line
    parses (a NaN and the infinities included) and with the exceptions that
    can leave its methods.  The sample, the faults, the cycle inputs and the
    log are those of the embedding above. *)
Module Observer64.

Record Observer : Type := mkObserver {
  main_collector_url : string;
  control_file_path : string;
  running : bool;
  thresholds : Binary64.Thresholds;
  current_mode : Mode;
  last_cardinality_count : Z;
  mode_change_count : Z
}.

(** [__init__]. *)
Definition new_observer (url path : string) (th : option Binary64.Thresholds)
  : Observer :=
  {| main_collector_url := url;
     control_file_path := path;
     running := false;
     thresholds := default Binary64.default_thresholds th;
     current_mode := moderate;
     last_cardinality_count := 0;
     mode_change_count := 0 |}.

(** A Python number: [int] or [float]. *)
Inductive PyNumber : Type :=
  | PyInt (z : Z)
  | PyFloat (x : float).

(** [max(0, x)] for a float [x]: [x] when [x > 0], and the [int] 0
    otherwise (also when [x] is a NaN). *)
Definition max_0 (x : float) : PyNumber :=
  if PrimFloat.ltb 0 x then PyFloat x else PyInt 0.

Record CardinalityAnalysis : Type := mkCardinalityAnalysis {
  total_phoenix_metrics : Z;
  unique_time_series : Z;
  reduction_potential : PyNumber;
  analysis_sample_metrics : list string
}.

Record ControlSignal : Type := mkControlSignal {
  mode : Mode;
  last_updated : Z;
  reason : string;
  ts_count : Z;
  config_version : Z;
  correlation_id : string;
  optimization_level : Z;
  signal_thresholds : Binary64.Thresholds;
  state : SignalState;
  cardinality_analysis : CardinalityAnalysis
}.

(** [generate_control_signal]: an exception of the classifier leaves the
    method before anything of [self] is changed. *)
Definition generate_control_signal (now : Z) (self : Observer)
    (cardinality_data : CardinalityData)
  : PyResult (option ControlSignal * Observer) :=
  let cardinality_count := cardinality_count cardinality_data in
  match Binary64.determine_optimization_mode (thresholds self) cardinality_count with
  | Raise error => Raise error
  | Return (new_mode, optimization_level) =>
      let cardinality_change :=
        Z.abs (cardinality_count - last_cardinality_count self) in
      let significant_change := 50 <? cardinality_change in
      if negb (bool_decide (new_mode = current_mode self)) || significant_change
      then
        let correlation_id := "observer-" +:+ pretty now in
        let '(reason, mode_change_count) :=
          if negb (bool_decide (new_mode = current_mode self)) then
            ("Mode change: " +:+ mode_name (current_mode self) +:+ " → "
               +:+ mode_name new_mode +:+ " (cardinality: "
               +:+ pretty cardinality_count +:+ ")",
             mode_change_count self + 1)
          else
            ("Cardinality update: " +:+ pretty cardinality_count
               +:+ " series (change: +" +:+ pretty cardinality_change +:+ ")",
             mode_change_count self) in
        let control_signal :=
          {| mode := new_mode;
             last_updated := now;
             reason := reason;
             ts_count := cardinality_count;
             config_version := now;
             correlation_id := correlation_id;
             optimization_level := optimization_level;
             signal_thresholds := thresholds self;
             state :=
               {| previous_mode := current_mode self;
                  transition_timestamp := now;
                  transition_duration_seconds := 0;
                  stability_period_seconds := 300;
                  mode_changes_total := mode_change_count |};
             cardinality_analysis :=
               {| total_phoenix_metrics := total_metrics cardinality_data;
                  unique_time_series := cardinality_count;
                  reduction_potential :=
                    max_0 (Binary64.of_count cardinality_count
                           - Binary64.th_moderate (thresholds self))%float;
                  analysis_sample_metrics := sample_metrics cardinality_data |} |} in
        Return
          (Some control_signal,
           {| main_collector_url := main_collector_url self;
              control_file_path := control_file_path self;
              running := running self;
              thresholds := thresholds self;
              current_mode := new_mode;
              last_cardinality_count := cardinality_count;
              mode_change_count := mode_change_count |})
      else
        Return (None, self)
  end.

Inductive FileContent : Type :=
  | RawText (text : string)
  | YamlDump (control_signal : ControlSignal)
  | Incomplete.

Record FileSystem : Type := mkFileSystem {
  control_file : option FileContent;
  backup_file : option FileContent
}.

Inductive Completion : Type :=
  | Completed (fs : FileSystem)
  | Raised (fs : FileSystem).

(** [write_control_signal], as above: its [except] swallows every
    exception of the two blocks. *)
Definition create_backup (fault : Fault) (fs : FileSystem) : Completion :=
  match control_file fs with
  | None => Completed fs
  | Some previous =>
      match fault with
      | OpenSourceFails | OpenBackupFails => Raised fs
      | ReadSourceFails | WriteBackupFails =>
          Raised {| control_file := control_file fs; backup_file := Some Incomplete |}
      | NoFault | OpenControlFails | DumpFails =>
          Completed {| control_file := control_file fs; backup_file := Some previous |}
      end
  end.

Definition write_new_signal (fault : Fault) (fs : FileSystem)
    (control_signal : ControlSignal) : Completion :=
  match fault with
  | OpenControlFails => Raised fs
  | DumpFails =>
      Raised {| control_file := Some Incomplete; backup_file := backup_file fs |}
  | _ =>
      Completed {| control_file := Some (YamlDump control_signal);
                   backup_file := backup_file fs |}
  end.

Definition write_control_signal (fault : Fault) (fs : FileSystem)
    (control_signal : ControlSignal) : bool * FileSystem * list LogEvent :=
  match create_backup fault fs with
  | Raised fs1 => (false, fs1, [LogWriteError])
  | Completed fs1 =>
      match write_new_signal fault fs1 control_signal with
      | Raised fs2 => (false, fs2, [LogWriteError])
      | Completed fs2 =>
          (true, fs2,
           [LogSignalWritten (mode control_signal) (ts_count control_signal)
              (optimization_level control_signal)])
      end
  end.

(** [time.sleep(seconds)] for an [int]: [ValueError] on a negative length,
    [OverflowError] on a length whose nanoseconds do not fit a signed 64-bit
    integer (CPython). *)
Definition max_sleep_seconds : Z := 9223372036.

Definition sleep (seconds : Z) : option PyError :=
  if seconds <? 0 then Some ValueError
  else if max_sleep_seconds <? seconds then Some OverflowError
  else None.

Record LoopState : Type := mkLoopState {
  observer : Observer;
  file_system : FileSystem;
  iteration : Z
}.

(** The tier shown in the threshold analysis at the end of an iteration. *)
Definition status_tier (th : Binary64.Thresholds) (cardinality_count : Z) : Mode :=
  if PrimFloat.leb (Binary64.of_count cardinality_count) (Binary64.th_moderate th)
  then moderate
  else if PrimFloat.leb (Binary64.of_count cardinality_count)
            (Binary64.th_adaptive th)
  then adaptive
  else ultra.

(** The body of the [while self.running] loop.  The third component is the
    exception that leaves the body, if one does, with the state and the log
    as they are at that point. *)
Definition observer_cycle (check_interval : Z) (input : CycleInput)
    (st : LoopState) : LoopState * list LogEvent * option PyError :=
  let iteration := iteration st + 1 in
  match get_cardinality_metrics (response input) (now input) with
  | None =>
      ({| observer := observer st; file_system := file_system st;
          iteration := iteration |},
       [LogIteration iteration; LogFetchError],
       sleep check_interval)
  | Some cardinality_data =>
      let cardinality_count := cardinality_count cardinality_data in
      let head_log :=
        [LogIteration iteration;
         LogCurrentCardinality cardinality_count (total_metrics cardinality_data)] in
      match generate_control_signal (now input) (observer st) cardinality_data with
      | Raise error =>
          ({| observer := observer st; file_system := file_system st;
              iteration := iteration |},
           head_log, Some error)
      | Return (control_signal, self) =>
          let '(fs, decision_log) :=
            match control_signal with
            | Some control_signal =>
                let '(success, fs, write_log) :=
                  write_control_signal (fault input) (file_system st)
                    control_signal in
                (fs,
                 [LogGeneratingSignal (current_mode self) (mode control_signal)
                    (optimization_level control_signal) (reason control_signal)]
                 ++ write_log
                 ++ [if success then LogWriteSucceeded else LogWriteFailed])
            | None => (file_system st, [LogNoModeChange (current_mode self)])
            end in
          let st' :=
            {| observer := self; file_system := fs; iteration := iteration |} in
          match Binary64.determine_optimization_mode (thresholds self)
                  cardinality_count with
          | Raise error => (st', head_log ++ decision_log, Some error)
          | Return (classified, opt_level) =>
              (st',
               head_log ++ decision_log
               ++ [LogStatus (status_tier (thresholds self) cardinality_count)
                     classified opt_level],
               sleep check_interval)
          end
      end
  end.

(** The loop: one iteration per input, until an exception leaves the body.
    The input running out stands for the keyboard interrupt that reaches the
    process while it sleeps. *)
Fixpoint run_cycles (check_interval : Z) (inputs : list CycleInput)
    (st : LoopState) : LoopState * list LogEvent * option PyError :=
  match inputs with
  | [] => (st, [], None)
  | input :: rest =>
      match observer_cycle check_interval input st with
      | (st1, log1, Some error) => (st1, log1, Some error)
      | (st1, log1, None) =>
          let '(st2, log2, raised) := run_cycles check_interval rest st1 in
          (st2, log1 ++ log2, raised)
      end
  end.

Definition set_running (flag : bool) (self : Observer) : Observer :=
  {| main_collector_url := main_collector_url self;
     control_file_path := control_file_path self;
     running := flag;
     thresholds := thresholds self;
     current_mode := current_mode self;
     last_cardinality_count := last_cardinality_count self;
     mode_change_count := mode_change_count self |}.

(** [run_observer]: the flag is set, the banner is printed, the loop runs. *)
Definition run_observer (self : Observer) (fs : FileSystem) (check_interval : Z)
    (inputs : list CycleInput) : LoopState * list LogEvent * option PyError :=
  let '(st, log, raised) :=
    run_cycles check_interval inputs
      {| observer := set_running true self; file_system := fs; iteration := 0 |} in
  (st, LogStarting :: log, raised).

(** The parsed arguments: [--interval] is an [int], the thresholds are
    whatever [float] accepts. *)
Record Args : Type := mkArgs {
  collector_url : string;
  control_file_arg : string;
  interval : Z;
  moderate_threshold : float;
  adaptive_threshold : float;
  ultra_threshold : float
}.

(** How the process ends: its exit status, the exception that ended it
    with a traceback, the exception that was caught and printed, and what
    the loop left behind. *)
Record ProcessResult : Type := mkProcessResult {
  exit_status : Z;
  uncaught : option PyError;
  printed_error : option PyError;
  final_state : LoopState;
  output : list LogEvent
}.

Definition observer_of_args (args : Args) : Observer :=
  new_observer (collector_url args) (control_file_arg args)
    (Some {| Binary64.th_moderate := moderate_threshold args;
             Binary64.th_adaptive := adaptive_threshold args;
             Binary64.th_ultra := ultra_threshold args |}).

(** [main] of the legacy script.  Nothing looks at the thresholds before
    the loop.  Only the keyboard interrupt is caught: the observer is then
    stopped and the process ends with status 0.  Any other exception ends
    the process with a traceback and status 1. *)
Definition main (args : Args) (fs : FileSystem) (inputs : list CycleInput)
  : ProcessResult :=
  let '(st, log, raised) :=
    run_observer (observer_of_args args) fs (interval args) inputs in
  match raised with
  | Some error =>
      {| exit_status := 1; uncaught := Some error; printed_error := None;
         final_state := st; output := log |}
  | None =>
      {| exit_status := 0; uncaught := None; printed_error := None;
         final_state :=
           {| observer := set_running false (observer st);
              file_system := file_system st;
              iteration := iteration st |};
         output := log ++ [LogStoppingObserver] |}
  end.

(** The [observe] command of [main] of the toolkit: the keyboard interrupt
    and every other exception are caught and reported, and the process ends
    with status 0 either way; the observer is not stopped. *)
Definition toolkit_observe (args : Args) (fs : FileSystem)
    (inputs : list CycleInput) : ProcessResult :=
  let '(st, log, raised) :=
    run_observer (observer_of_args args) fs (interval args) inputs in
  {| exit_status := 0; uncaught := None; printed_error := raised;
     final_state := st; output := log |}.

End Observer64.


Definition nan_args : Observer64.Args :=
  {| Observer64.collector_url := "http://localhost:8888/metrics";
     Observer64.control_file_arg := "configs/control_signals/opt_mode.yaml";
     Observer64.interval := 30;
     Observer64.moderate_threshold := PrimFloat.nan;
     Observer64.adaptive_threshold := 375;
     Observer64.ultra_threshold := 450 |}.

Definition negative_interval_args : Observer64.Args :=
  {| Observer64.collector_url := "http://localhost:8888/metrics";
     Observer64.control_file_arg := "configs/control_signals/opt_mode.yaml";
     Observer64.interval := -1;
     Observer64.moderate_threshold := 300;
     Observer64.adaptive_threshold := 375;
     Observer64.ultra_threshold := 450 |}.

Definition empty_store64 : Observer64.FileSystem :=
  {| Observer64.control_file := None; Observer64.backup_file := None |}.

(** Thresholds that are not dyadic, as binary64 reads them: 0.6, 5.5 and
    15.5. *)
Definition decimal_thresholds : Binary64.Thresholds :=
  {| Binary64.th_moderate := 0x1.3333333333333p-1;
     Binary64.th_adaptive := 5.5;
     Binary64.th_ultra := 15.5 |}.


(** * Properties *)

(** ** Arithmetic of the classifier *)

Section Classifier.

Lemma Qle_bool_false (x y : Q) : Qle_bool x y = false <-> (y < x)%Q.
Proof.
  split; intros H.
  - apply Qnot_le_lt. intros Hle. apply Qle_bool_iff in Hle. congruence.
  - destruct (Qle_bool x y) eqn:E; [|reflexivity].
    apply Qle_bool_iff in E. exfalso. apply (Qlt_not_le _ _ H E).
Qed.






Variable th : Thresholds.

(** In the adaptive tier the divisor [range_size] is positive, so the
    division of the source cannot raise [ZeroDivisionError]. *)
Lemma range_size_positive (c : Z) :
  (th_moderate th < inject_Z c)%Q -> (inject_Z c <= th_adaptive th)%Q ->
  (0 < th_adaptive th - th_moderate th)%Q.
Proof. intros. lra. Qed.

(** In the scaled part of the ultra tier the divisor [max_excess] is
    positive. *)
Lemma max_excess_positive (c : Z) :
  (th_adaptive th < inject_Z c)%Q ->
  (inject_Z c - th_adaptive th < th_ultra th - th_adaptive th)%Q ->
  (0 < th_ultra th - th_adaptive th)%Q.
Proof. intros. lra. Qed.







Lemma classify_ultra_saturated (c : Z) :
  (th_moderate th < inject_Z c)%Q -> (th_adaptive th < inject_Z c)%Q ->
  (th_ultra th <= inject_Z c)%Q ->
  determine_optimization_mode th c = (ultra, 100).
Proof.
  intros H1 H2 H3. unfold determine_optimization_mode.
  apply Qle_bool_false in H1 as E1. apply Qle_bool_false in H2 as E2.
  rewrite E1, E2. cbv zeta.
  assert (E3 : Qle_bool (th_ultra th - th_adaptive th)
                 (inject_Z c - th_adaptive th) = true)
    by (apply Qle_bool_iff; lra).
  now rewrite E3.
Qed.


End Classifier.

(** ** The level of the adaptive tier (C1) *)

Lemma default_thresholds_ordered : strictly_ordered default_thresholds.
Proof. split; reflexivity. Qed.




(** ** Monotonicity and tier boundaries (C4) *)

Lemma level_range (th : Thresholds) (c : Z) :
  0 <= snd (determine_optimization_mode th c) <= 100.
Proof.
  unfold determine_optimization_mode.
  repeat match goal with
         | |- context [if ?b then _ else _] => destruct b
         end; cbv zeta; simpl; lia.
Qed.




(** ** The worked examples and saturation (C6) *)

(** C6.  With thresholds 300 / 375 / 450 the classifier returns
    (moderate, 0) at 300, (adaptive, 50) at 337, (ultra, 100) at 450 and at
    600; every count at or above the ultra threshold gets level exactly 100,
    and no count gets a level above 100. *)
Theorem default_thresholds_examples_and_saturation :
  determine_optimization_mode default_thresholds 300 = (moderate, 0)
  /\ determine_optimization_mode default_thresholds 337 = (adaptive, 50)
  /\ determine_optimization_mode default_thresholds 450 = (ultra, 100)
  /\ determine_optimization_mode default_thresholds 600 = (ultra, 100)
  /\ (forall c : Z,
        450 <= c -> determine_optimization_mode default_thresholds c = (ultra, 100))
  /\ (forall c : Z, snd (determine_optimization_mode default_thresholds c) <= 100).
Proof.
  repeat split; try reflexivity.
  - intros c Hc.
    assert (Hq : (450 <= inject_Z c)%Q)
      by (change 450%Q with (inject_Z 450); rewrite <- Zle_Qle; exact Hc).
    apply classify_ultra_saturated;
      cbn [default_thresholds th_moderate th_adaptive th_ultra]; lra.
  - intros c. apply level_range.
Qed.

(** The exact model and binary64 arithmetic agree with the default
    thresholds at every count from 0 to 1000, and with [low_thresholds] at
    every count from 0 to 10; in particular at the counts of the examples
    above. *)
Example binary64_agrees_default :
  binary64_agrees default_thresholds 300 375 450 0 1001 = true.
Proof. vm_compute. reflexivity. Qed.

Example binary64_agrees_low :
  binary64_agrees low_thresholds 1 2 3 0 11 = true.
Proof. vm_compute. reflexivity. Qed.

(** With thresholds that are not dyadic the two part: at 0.6 / 5.5 / 15.5
    and count 4 the exact value of the level is 60, and binary64 arithmetic
    gives 59.99999999999999, which [int] truncates to 59. *)
Example binary64_differs_from_exact :
  Binary64.determine_optimization_mode decimal_thresholds 4
  = Return (adaptive, 59)
  /\ determine_optimization_mode
       {| th_moderate := 6 # 10; th_adaptive := 55 # 10; th_ultra := 155 # 10 |} 4
     = (adaptive, 60).
Proof. split; vm_compute; reflexivity. Qed.

Example binary64_example_338 :
  Binary64.determine_optimization_mode Binary64.default_thresholds 338
  = Return (adaptive, 50).
Proof. vm_compute. reflexivity. Qed.

(** ** The signal generator *)

Section Generator.

Variables (now : Z) (self : Observer) (cardinality_data : CardinalityData).

Let count := cardinality_count cardinality_data.
Let new_mode := fst (determine_optimization_mode (thresholds self) count).
Let change := Z.abs (count - last_cardinality_count self).

(** A mode transition: a signal is built, the counter goes up by one and the
    new mode and count are stored. *)
Lemma generate_on_transition :
  new_mode <> current_mode self ->
  exists control_signal,
    generate_control_signal now self cardinality_data
    = (Some control_signal,
       {| main_collector_url := main_collector_url self;
          control_file_path := control_file_path self;
          running := running self;
          thresholds := thresholds self;
          current_mode := new_mode;
          last_cardinality_count := count;
          mode_change_count := mode_change_count self + 1 |})
    /\ mode control_signal = new_mode
    /\ ts_count control_signal = count
    /\ previous_mode (state control_signal) = current_mode self
    /\ mode_changes_total (state control_signal) = mode_change_count self + 1.
Proof.
  subst new_mode change count. intros Hne.
  unfold generate_control_signal.
  destruct (determine_optimization_mode (thresholds self)
              (cardinality_count cardinality_data)) as [m lvl].
  cbn [fst] in Hne.
  rewrite (bool_decide_eq_false_2 _ Hne). cbn [negb orb].
  eexists. split; [reflexivity|]. cbn. auto.
Qed.

(** A magnitude-only emission: same mode, the count moved by more than 50.
    The counter is left as it was. *)
Lemma generate_on_magnitude :
  new_mode = current_mode self -> 50 < change ->
  exists control_signal,
    generate_control_signal now self cardinality_data
    = (Some control_signal,
       {| main_collector_url := main_collector_url self;
          control_file_path := control_file_path self;
          running := running self;
          thresholds := thresholds self;
          current_mode := new_mode;
          last_cardinality_count := count;
          mode_change_count := mode_change_count self |})
    /\ mode control_signal = new_mode
    /\ ts_count control_signal = count
    /\ previous_mode (state control_signal) = current_mode self
    /\ mode_changes_total (state control_signal) = mode_change_count self.
Proof.
  subst new_mode change count. intros Heq Hbig.
  unfold generate_control_signal.
  destruct (determine_optimization_mode (thresholds self)
              (cardinality_count cardinality_data)) as [m lvl].
  cbn [fst] in Heq.
  rewrite (bool_decide_eq_true_2 _ Heq). cbn [negb orb].
  apply Z.ltb_lt in Hbig. rewrite Hbig.
  eexists. split; [reflexivity|]. cbn. auto.
Qed.

(** Neither: nothing is returned and the observer is untouched. *)
Lemma generate_on_quiet :
  new_mode = current_mode self -> change <= 50 ->
  generate_control_signal now self cardinality_data = (None, self).
Proof.
  subst new_mode change count. intros Heq Hsmall.
  unfold generate_control_signal.
  destruct (determine_optimization_mode (thresholds self)
              (cardinality_count cardinality_data)) as [m lvl].
  cbn [fst] in Heq.
  rewrite (bool_decide_eq_true_2 _ Heq). cbn [negb orb].
  apply Z.ltb_ge in Hsmall. now rewrite Hsmall.
Qed.

(** The three cases are exhaustive. *)
Lemma generate_cases :
  new_mode <> current_mode self
  \/ (new_mode = current_mode self /\ 50 < change)
  \/ (new_mode = current_mode self /\ change <= 50).
Proof.
  destruct (decide (new_mode = current_mode self)) as [E|E]; [|now left].
  right. destruct (Z_lt_le_dec 50 change); [left | right]; auto.
Qed.

(** The generator never touches the thresholds. *)
Lemma generate_keeps_thresholds :
  thresholds (snd (generate_control_signal now self cardinality_data))
  = thresholds self.
Proof.
  destruct generate_cases as [H|[[H1 H2]|[H1 H2]]].
  - destruct (generate_on_transition H) as (s & -> & _). reflexivity.
  - destruct (generate_on_magnitude H1 H2) as (s & -> & _). reflexivity.
  - now rewrite (generate_on_quiet H1 H2).
Qed.

(** The emission condition, as an equivalence. *)
Lemma generate_emits_iff :
  is_Some (fst (generate_control_signal now self cardinality_data))
  <-> new_mode <> current_mode self \/ 50 < change.
Proof.
  destruct generate_cases as [H|[[H1 H2]|[H1 H2]]].
  - destruct (generate_on_transition H) as (s & -> & _). cbn. split; eauto.
  - destruct (generate_on_magnitude H1 H2) as (s & -> & _). cbn. split; eauto.
  - rewrite (generate_on_quiet H1 H2). cbn. split.
    + intros [x Hx]. discriminate.
    + intros [Hn|Hn]; [contradiction | lia].
Qed.

Lemma generate_none_unchanged :
  fst (generate_control_signal now self cardinality_data) = None ->
  generate_control_signal now self cardinality_data = (None, self).
Proof.
  intros Hnone.
  destruct generate_cases as [H|[[H1 H2]|[H1 H2]]].
  - destruct (generate_on_transition H) as (s & E & _).
    rewrite E in Hnone. discriminate.
  - destruct (generate_on_magnitude H1 H2) as (s & E & _).
    rewrite E in Hnone. discriminate.
  - now apply generate_on_quiet.
Qed.

End Generator.

(** ** Emission condition (C2) *)

(** A cycle whose generator returns nothing leaves the observer and both
    files as they were. *)
Lemma quiet_cycle_unchanged (input : CycleInput) (st : LoopState)
    (cardinality_data : CardinalityData) :
  get_cardinality_metrics (response input) (now input) = Some cardinality_data ->
  fst (generate_control_signal (now input) (observer st) cardinality_data) = None ->
  observer (fst (observer_cycle input st)) = observer st
  /\ file_system (fst (observer_cycle input st)) = file_system st.
Proof.
  intros Hget Hnone. unfold observer_cycle. rewrite Hget.
  rewrite (generate_none_unchanged _ _ _ Hnone).
  destruct (determine_optimization_mode (thresholds (observer st))
              (cardinality_count cardinality_data)).
  split; reflexivity.
Qed.

(** C2.  For every sample and prior state the generator emits a signal
    exactly when the classified mode differs from the current mode or the
    count moved by more than 50 from the last count; when it emits nothing
    the observer (current mode, last count, mode-change counter) is returned
    unchanged, and the cycle of the loop around it writes no file. *)
Theorem emission_condition_exact (t : Z) (self : Observer)
    (cardinality_data : CardinalityData) :
  (is_Some (fst (generate_control_signal t self cardinality_data))
   <-> fst (determine_optimization_mode (thresholds self)
              (cardinality_count cardinality_data)) <> current_mode self
       \/ 50 < Z.abs (cardinality_count cardinality_data
                      - last_cardinality_count self))
  /\ (fst (generate_control_signal t self cardinality_data) = None ->
      snd (generate_control_signal t self cardinality_data) = self)
  /\ (forall (input : CycleInput) (st : LoopState),
        observer st = self -> now input = t ->
        get_cardinality_metrics (response input) (now input)
        = Some cardinality_data ->
        fst (generate_control_signal t self cardinality_data) = None ->
        observer (fst (observer_cycle input st)) = self
        /\ file_system (fst (observer_cycle input st)) = file_system st).
Proof.
  split; [apply generate_emits_iff|].
  split.
  - intros Hnone. now rewrite (generate_none_unchanged _ _ _ Hnone).
  - intros input st <- <- Hget Hnone.
    now apply (quiet_cycle_unchanged input st cardinality_data).
Qed.

(** ** The mode-change counter (C5) *)

Lemma generate_counter_step (t : Z) (self : Observer)
    (cardinality_data : CardinalityData) :
  mode_change_count (snd (generate_control_signal t self cardinality_data))
  = mode_change_count self
    + (if is_mode_transition self cardinality_data then 1 else 0)
  /\ (forall control_signal,
        fst (generate_control_signal t self cardinality_data) = Some control_signal ->
        mode_changes_total (state control_signal)
        = mode_change_count self
          + (if is_mode_transition self cardinality_data then 1 else 0)).
Proof.
  unfold is_mode_transition.
  destruct (generate_cases self cardinality_data) as [H|[[H1 H2]|[H1 H2]]].
  - destruct (generate_on_transition t self cardinality_data H)
      as (s & -> & _ & _ & _ & Hs).
    rewrite (bool_decide_eq_false_2 _ H). cbn.
    split; [reflexivity|]. intros ? [= <-]. exact Hs.
  - destruct (generate_on_magnitude t self cardinality_data H1 H2)
      as (s & -> & _ & _ & _ & Hs).
    rewrite (bool_decide_eq_true_2 _ H1). cbn.
    split; [lia|]. intros ? [= <-]. lia.
  - rewrite (generate_on_quiet t self cardinality_data H1 H2).
    rewrite (bool_decide_eq_true_2 _ H1). cbn.
    split; [lia|]. intros ? [=].
Qed.

Lemma generate_all_cons (self : Observer) (t : Z) (d : CardinalityData)
    (rest : list (Z * CardinalityData)) :
  generate_all self ((t, d) :: rest)
  = (fst (generate_control_signal t self d)
       :: fst (generate_all (snd (generate_control_signal t self d)) rest),
     snd (generate_all (snd (generate_control_signal t self d)) rest)).
Proof.
  cbn [generate_all].
  destruct (generate_control_signal t self d) as [sig self1]. cbn [fst snd].
  destruct (generate_all self1 rest) as [sigs self2]. reflexivity.
Qed.

Lemma generate_all_counter (samples : list (Z * CardinalityData)) :
  forall self : Observer,
    mode_change_count (snd (generate_all self samples))
    = mode_change_count self + count_transitions self samples.
Proof.
  induction samples as [|[t d] rest IH]; intros self.
  - cbn. lia.
  - rewrite generate_all_cons. cbn [snd count_transitions].
    rewrite IH. destruct (generate_counter_step t self d) as [-> _]. lia.
Qed.

Lemma generate_all_recorded (samples : list (Z * CardinalityData)) :
  forall (self : Observer) (k : nat) (control_signal : ControlSignal),
    fst (generate_all self samples) !! k = Some (Some control_signal) ->
    mode_changes_total (state control_signal)
    = mode_change_count self + count_transitions self (take (S k) samples).
Proof.
  induction samples as [|[t d] rest IH]; intros self k s Hk.
  - cbn in Hk. discriminate.
  - rewrite generate_all_cons in Hk. cbn [fst] in Hk.
    destruct (generate_counter_step t self d) as [Hstep Hsig].
    destruct k as [|k].
    + cbn in Hk. injection Hk as Hk.
      cbn [take count_transitions]. rewrite (Hsig _ Hk), take_0.
      cbn [count_transitions]. lia.
    + cbn [lookup list_lookup] in Hk. apply IH in Hk. rewrite Hk, Hstep.
      change (take (S (S k)) ((t, d) :: rest)) with ((t, d) :: take (S k) rest).
      cbn [count_transitions]. lia.
Qed.

(** C5.  Over every sequence of invocations of the generator, the counter
    grows by exactly one at each invocation whose classified mode differs
    from the current mode (each of which emits) and stays put at every
    other invocation, emitting on magnitude alone or not at all; the signal
    emitted at any point records the counter as it stands after that
    invocation. *)
Theorem mode_change_counter_counts_transitions (self : Observer)
    (samples : list (Z * CardinalityData)) :
  mode_change_count (snd (generate_all self samples))
  = mode_change_count self + count_transitions self samples
  /\ (forall (k : nat) (control_signal : ControlSignal),
        fst (generate_all self samples) !! k = Some (Some control_signal) ->
        mode_changes_total (state control_signal)
        = mode_change_count self + count_transitions self (take (S k) samples))
  /\ (forall (t : Z) (d : CardinalityData),
        let result := generate_control_signal t self d in
        (is_mode_transition self d = true ->
         mode_change_count (snd result) = mode_change_count self + 1
         /\ exists control_signal,
              fst result = Some control_signal
              /\ mode_changes_total (state control_signal)
                 = mode_change_count self + 1)
        /\ (is_mode_transition self d = false ->
            mode_change_count (snd result) = mode_change_count self
            /\ forall control_signal,
                 fst result = Some control_signal ->
                 mode_changes_total (state control_signal)
                 = mode_change_count self)).
Proof.
  split; [apply generate_all_counter|].
  split; [apply generate_all_recorded|].
  intros t d result. subst result.
  destruct (generate_counter_step t self d) as [Hstep Hsig].
  split; intros Ht; rewrite Ht in *.
  - split; [exact Hstep|].
    unfold is_mode_transition in Ht. apply negb_true_iff in Ht.
    apply bool_decide_eq_false_1 in Ht.
    destruct (generate_on_transition t self d Ht) as (s & E & _ & _ & _ & Hs).
    exists s. rewrite E. split; [reflexivity | exact Hs].
  - split; [lia|]. intros s Hs. rewrite (Hsig s Hs). lia.
Qed.

(** ** Repeated samples (C9) *)

Lemma identical_sample_stays_quiet (t1 t2 : Z) (self : Observer)
    (d1 d2 : CardinalityData) :
  cardinality_count d1 = cardinality_count d2 ->
  fst (generate_control_signal t2 (snd (generate_control_signal t1 self d1)) d2)
  = None.
Proof.
  intros Hsame.
  destruct (generate_cases self d1) as [H|[[H1 H2]|[H1 H2]]].
  - destruct (generate_on_transition t1 self d1 H) as (s & -> & _).
    cbn [snd]. rewrite generate_on_quiet; cbn; rewrite <- ?Hsame; [done..|].
    replace (cardinality_count d1 - cardinality_count d1) with 0 by lia. cbn. lia.
  - destruct (generate_on_magnitude t1 self d1 H1 H2) as (s & -> & _).
    cbn [snd]. rewrite generate_on_quiet; cbn; rewrite <- ?Hsame; [done..|].
    replace (cardinality_count d1 - cardinality_count d1) with 0 by lia. cbn. lia.
  - rewrite (generate_on_quiet t1 self d1 H1 H2). cbn [snd].
    rewrite generate_on_quiet; rewrite <- ?Hsame; [done|exact H1|exact H2].
Qed.

(** C9.  From every prior state, two invocations in a row on samples with
    the same count never both emit: whatever the first one does, the second
    returns nothing. *)
Theorem identical_sample_not_emitted_twice (t1 t2 : Z) (self : Observer)
    (d1 d2 : CardinalityData) :
  cardinality_count d1 = cardinality_count d2 ->
  fst (generate_control_signal t2 (snd (generate_control_signal t1 self d1)) d2)
  = None
  /\ ~ (is_Some (fst (generate_control_signal t1 self d1))
        /\ is_Some (fst (generate_control_signal t2
                           (snd (generate_control_signal t1 self d1)) d2))).
Proof.
  intros Hsame.
  pose proof (identical_sample_stays_quiet t1 t2 self d1 d2 Hsame) as H.
  split; [exact H|]. rewrite H. intros [_ [x Hx]]. discriminate.
Qed.

Lemma identical_sample_not_emitted_twice_witness :
  let sample := {| cardinality_count := 400; total_metrics := 400;
                   timestamp := 0; sample_metrics := [] |} in
  fst (generate_control_signal 11
         (snd (generate_control_signal 10 example_observer sample))
         sample) = None.
Proof.
  intros sample.
  apply (identical_sample_not_emitted_twice 10 11 example_observer
           sample sample).
  reflexivity.
Defined.

(** ** The signal store (C10) *)

(** C10, as the code has it.  When a previous signal file exists the store
    copies it to the backup before it overwrites: without a fault the backup
    holds the previous content, the file holds the new signal and the write
    reports success.  The backup shares the [try] block of the write, so a
    failure of the backup step does block it: the signal file keeps its
    previous content and the write reports failure.  A failure while the
    new signal is written comes after the backup was made. *)
Theorem backup_precedes_write_and_its_failure_aborts (fault : Fault)
    (fs : FileSystem) (previous : FileContent) (control_signal : ControlSignal) :
  control_file fs = Some previous ->
  let '(success, fs', log) := write_control_signal fault fs control_signal in
  (fault = NoFault ->
   success = true
   /\ control_file fs' = Some (YamlDump control_signal)
   /\ backup_file fs' = Some previous)
  /\ (backup_fault fault = true ->
      success = false
      /\ control_file fs' = Some previous
      /\ log = [LogWriteError])
  /\ (main_fault fault = true ->
      success = false
      /\ control_file fs'
         = Some (match fault with DumpFails => Incomplete | _ => previous end)
      /\ backup_file fs' = Some previous).
Proof.
  intros Hprev. unfold write_control_signal, create_backup, write_new_signal.
  rewrite Hprev.
  destruct fault; cbn;
    (split; [|split]); intros Hf; try discriminate Hf;
    repeat split; try reflexivity; exact Hprev.
Qed.

Lemma backup_precedes_write_and_its_failure_aborts_witness :
  write_control_signal NoFault example_store example_signal
  = (true,
     {| control_file := Some (YamlDump example_signal);
        backup_file := Some (RawText "mode: moderate") |},
     [LogSignalWritten ultra 400 84])
  /\ fst (fst (write_control_signal OpenBackupFails example_store example_signal))
     = false.
Proof.
  split; [reflexivity|].
  pose proof (backup_precedes_write_and_its_failure_aborts OpenBackupFails
                example_store (RawText "mode: moderate") example_signal
                eq_refl) as H.
  destruct (write_control_signal OpenBackupFails example_store example_signal)
    as [[success fs'] log].
  destruct H as (_ & H & _). destruct (H eq_refl) as [-> _]. reflexivity.
Defined.

(** C10 as stated fails: a previous signal file exists, only the opening of
    the backup file fails (the signal file itself could be written), and the
    new signal is not written and the write reports failure. *)
Lemma backup_failure_blocks_write_counterexample :
  control_file example_store = Some (RawText "mode: moderate")
  /\ create_backup OpenBackupFails example_store = Raised example_store
  /\ write_new_signal OpenBackupFails example_store example_signal
     = Completed {| control_file := Some (YamlDump example_signal);
                    backup_file := None |}
  /\ write_control_signal OpenBackupFails example_store example_signal
     = (false, example_store, [LogWriteError])
  /\ ~ (fst (fst (write_control_signal OpenBackupFails example_store
                    example_signal)) = true
        /\ control_file (snd (fst (write_control_signal OpenBackupFails
                                     example_store example_signal)))
           = Some (YamlDump example_signal)).
Proof.
  repeat split; try reflexivity.
  intros [H _]. cbn in H. discriminate.
Qed.

(** ** The control loop when a write fails (C3) *)

Lemma write_failure_log (fault : Fault) (fs : FileSystem)
    (control_signal : ControlSignal) :
  fst (fst (write_control_signal fault fs control_signal)) = false ->
  snd (write_control_signal fault fs control_signal) = [LogWriteError].
Proof.
  unfold write_control_signal.
  destruct (create_backup fault fs) as [fs1|fs1]; [|reflexivity].
  destruct (write_new_signal fault fs1 control_signal); [discriminate|reflexivity].
Qed.

(** What an emission stores in the observer: the mode and the count of the
    emitted signal. *)
Lemma generate_some_committed (t : Z) (self self' : Observer)
    (d : CardinalityData) (control_signal : ControlSignal) :
  generate_control_signal t self d = (Some control_signal, self') ->
  current_mode self' = mode control_signal
  /\ last_cardinality_count self' = ts_count control_signal
  /\ ts_count control_signal = cardinality_count d
  /\ mode control_signal
     = fst (determine_optimization_mode (thresholds self) (cardinality_count d))
  /\ thresholds self' = thresholds self.
Proof.
  intros Hgen.
  destruct (generate_cases self d) as [H|[[H1 H2]|[H1 H2]]].
  - destruct (generate_on_transition t self d H) as (s & E & Hm & Hc & _).
    rewrite E in Hgen. injection Hgen as <- <-. cbn. rewrite Hm, Hc. auto.
  - destruct (generate_on_magnitude t self d H1 H2) as (s & E & Hm & Hc & _).
    rewrite E in Hgen. injection Hgen as <- <-. cbn. rewrite Hm, Hc. auto.
  - rewrite (generate_on_quiet t self d H1 H2) in Hgen. discriminate.
Qed.

(** The cycle around an emission. *)
Lemma emitting_cycle (input : CycleInput) (st : LoopState)
    (d : CardinalityData) (control_signal : ControlSignal) (self' : Observer) :
  get_cardinality_metrics (response input) (now input) = Some d ->
  generate_control_signal (now input) (observer st) d = (Some control_signal, self') ->
  let written := write_control_signal (fault input) (file_system st) control_signal in
  let '(classified, opt_level) :=
    determine_optimization_mode (thresholds self') (cardinality_count d) in
  observer_cycle input st
  = ({| observer := self'; file_system := snd (fst written);
        iteration := iteration st + 1 |},
     [LogIteration (iteration st + 1);
      LogCurrentCardinality (cardinality_count d) (total_metrics d)]
     ++ ([LogGeneratingSignal (current_mode self') (mode control_signal)
            (optimization_level control_signal) (reason control_signal)]
         ++ snd written
         ++ [if fst (fst written) then LogWriteSucceeded else LogWriteFailed])
     ++ [LogStatus (status_tier (thresholds self') (cardinality_count d))
           classified opt_level]).
Proof.
  intros Hget Hgen written. subst written. unfold observer_cycle.
  rewrite Hget, Hgen.
  destruct (write_control_signal (fault input) (file_system st) control_signal)
    as [[success fs'] wl].
  destruct (determine_optimization_mode (thresholds self') (cardinality_count d)).
  reflexivity.
Qed.

(** The cycle around a sample that emits nothing. *)
Lemma quiet_cycle (input : CycleInput) (st : LoopState) (d : CardinalityData) :
  get_cardinality_metrics (response input) (now input) = Some d ->
  fst (generate_control_signal (now input) (observer st) d) = None ->
  let '(classified, opt_level) :=
    determine_optimization_mode (thresholds (observer st)) (cardinality_count d) in
  observer_cycle input st
  = ({| observer := observer st; file_system := file_system st;
        iteration := iteration st + 1 |},
     [LogIteration (iteration st + 1);
      LogCurrentCardinality (cardinality_count d) (total_metrics d)]
     ++ [LogNoModeChange (current_mode (observer st))]
     ++ [LogStatus (status_tier (thresholds (observer st)) (cardinality_count d))
           classified opt_level]).
Proof.
  intros Hget Hnone. unfold observer_cycle.
  rewrite Hget, (generate_none_unchanged _ _ _ Hnone).
  destruct (determine_optimization_mode (thresholds (observer st))
              (cardinality_count d)).
  reflexivity.
Qed.

(** C3, as the code has it.  When the write of an emitted signal fails, the
    cycle logs the failure and the loop goes on to the next cycle; the
    observer's current mode and last count were set to the emitted values
    when the signal was built and stay so; the next cycle, on a sample with
    the same count, finds nothing to emit, so nothing is written and the
    files are as the failed write left them. *)
Theorem failed_write_state_committed_no_retry (input input2 : CycleInput)
    (st : LoopState) (d d2 : CardinalityData) (control_signal : ControlSignal)
    (self' : Observer) :
  get_cardinality_metrics (response input) (now input) = Some d ->
  generate_control_signal (now input) (observer st) d = (Some control_signal, self') ->
  fst (fst (write_control_signal (fault input) (file_system st) control_signal))
  = false ->
  get_cardinality_metrics (response input2) (now input2) = Some d2 ->
  cardinality_count d2 = cardinality_count d ->
  let '(st1, log1) := observer_cycle input st in
  let '(st2, log2) := observer_cycle input2 st1 in
  (In LogWriteError log1 /\ In LogWriteFailed log1)
  /\ run_cycles [input; input2] st = (st2, log1 ++ log2 ++ [])
  /\ iteration st2 = iteration st + 2
  /\ (current_mode (observer st1) = mode control_signal
      /\ last_cardinality_count (observer st1) = ts_count control_signal)
  /\ fst (generate_control_signal (now input2) (observer st1) d2) = None
  /\ In (LogNoModeChange (mode control_signal)) log2
  /\ observer st2 = observer st1
  /\ file_system st2 = file_system st1.
Proof.
  intros Hget Hgen Hfail Hget2 Hsame.
  pose proof (emitting_cycle input st d control_signal self' Hget Hgen) as Hc1.
  cbv zeta in Hc1. rewrite Hfail, (write_failure_log _ _ _ Hfail) in Hc1.
  destruct (determine_optimization_mode (thresholds self') (cardinality_count d))
    as [m1 l1].
  assert (Hrun : run_cycles [input; input2] st
                 = (let '(st1, log1) := observer_cycle input st in
                    let '(st2, log2) := observer_cycle input2 st1 in
                    (st2, log1 ++ log2 ++ []))).
  { cbn [run_cycles]. destruct (observer_cycle input st) as [a la].
    destruct (observer_cycle input2 a) as [b lb]. reflexivity. }
  rewrite Hc1 in Hrun |- *. clear Hc1.
  destruct (generate_some_committed _ _ _ _ _ Hgen) as (Hm & Hl & Hts & _ & _).
  assert (Hnone : fst (generate_control_signal (now input2) self' d2) = None).
  { pose proof (identical_sample_stays_quiet (now input) (now input2)
                  (observer st) d d2 (eq_sym Hsame)) as Hq.
    now rewrite Hgen in Hq. }
  pose proof (quiet_cycle input2
                {| observer := self';
                   file_system :=
                     snd (fst (write_control_signal (fault input)
                                 (file_system st) control_signal));
                   iteration := iteration st + 1 |}
                d2 Hget2 Hnone) as Hc2.
  cbn [observer file_system iteration] in Hc2.
  destruct (determine_optimization_mode (thresholds self') (cardinality_count d2))
    as [m2 l2].
  rewrite Hc2 in Hrun |- *. clear Hc2.
  cbn [observer file_system iteration].
  split; [split; cbn; tauto|].
  split; [exact Hrun|].
  split; [lia|].
  split; [split; assumption|].
  split; [exact Hnone|].
  split; [rewrite Hm; cbn; tauto|].
  split; reflexivity.
Qed.

Lemma failed_write_state_committed_no_retry_witness :
  current_mode (observer (fst (observer_cycle failing_input low_state)))
  = adaptive
  /\ file_system
       (fst (observer_cycle retry_input
               (fst (observer_cycle failing_input low_state))))
     = empty_store.
Proof.
  pose proof (failed_write_state_committed_no_retry failing_input retry_input
                low_state two_series_sample retry_sample low_signal
                (snd low_generated)) as H.
  destruct (observer_cycle failing_input low_state) as [st1 log1] eqn:E1.
  cbn [fst].
  destruct (observer_cycle retry_input st1) as [st2 log2] eqn:E2.
  destruct H as (_ & _ & _ & [Hm _] & _ & _ & _ & Hfs);
    try (vm_compute; reflexivity).
  cbn [fst]. split; [rewrite Hm; reflexivity|].
  rewrite Hfs. vm_compute in E1. injection E1 as <- _. reflexivity.
Defined.

(** C3 as stated fails: the scrape moves the observer from moderate to
    adaptive, the write of the signal fails, and yet the observer holds the
    emitted mode and count; the next cycle sees the same scrape with a
    healthy file system, emits nothing, and the signal file still does not
    exist. *)
Lemma failed_write_not_retried_counterexample :
  let st1 := fst (observer_cycle failing_input low_state) in
  let st2 := fst (observer_cycle retry_input st1) in
  fst (generate_control_signal (now failing_input) (observer low_state)
         two_series_sample) = Some low_signal
  /\ fst (fst (write_control_signal (fault failing_input)
                 (file_system low_state) low_signal)) = false
  /\ In LogWriteFailed (snd (observer_cycle failing_input low_state))
  /\ current_mode (observer low_state) = moderate
  /\ current_mode (observer st1) = adaptive
  /\ last_cardinality_count (observer low_state) = 0
  /\ last_cardinality_count (observer st1) = 2
  /\ get_cardinality_metrics (response retry_input) (now retry_input)
     = Some retry_sample
  /\ cardinality_count retry_sample = cardinality_count two_series_sample
  /\ fst (generate_control_signal (now retry_input) (observer st1)
            retry_sample) = None
  /\ control_file (file_system st2) = None
  /\ ~ (current_mode (observer st1) = current_mode (observer low_state)
        /\ last_cardinality_count (observer st1)
           = last_cardinality_count (observer low_state)
        /\ is_Some (fst (generate_control_signal (now retry_input)
                           (observer st1) retry_sample))).
Proof.
  cbv zeta.
  repeat match goal with |- _ /\ _ => split end;
    try (vm_compute; reflexivity).
  - vm_compute. tauto.
  - intros (H & _). vm_compute in H. discriminate.
Qed.

(** ** Startup (C7) *)

Lemma cycles_run_app (l1 l2 : list LogEvent) :
  cycles_run (l1 ++ l2) = (cycles_run l1 + cycles_run l2)%nat.
Proof. unfold cycles_run. now rewrite List.filter_app, length_app. Qed.

Lemma write_log_no_iteration (fault : Fault) (fs : FileSystem)
    (control_signal : ControlSignal) :
  cycles_run (snd (write_control_signal fault fs control_signal)) = 0%nat.
Proof.
  unfold write_control_signal.
  destruct (create_backup fault fs) as [fs1|fs1]; [|reflexivity].
  destruct (write_new_signal fault fs1 control_signal); reflexivity.
Qed.

(** Every pass through the loop body announces itself once, whatever the
    fetch, the decision and the write do. *)
Lemma observer_cycle_logs_one_iteration (input : CycleInput) (st : LoopState) :
  cycles_run (snd (observer_cycle input st)) = 1%nat.
Proof.
  unfold observer_cycle.
  destruct (get_cardinality_metrics (response input) (now input)) as [d|];
    [|reflexivity].
  destruct (generate_control_signal (now input) (observer st) d) as [[s|] self'].
  - pose proof (write_log_no_iteration (fault input) (file_system st) s) as Hw.
    destruct (write_control_signal (fault input) (file_system st) s)
      as [[success fs'] wl].
    destruct (determine_optimization_mode (thresholds self') (cardinality_count d)).
    cbn [snd] in *. rewrite !cycles_run_app, Hw.
    destruct success; reflexivity.
  - destruct (determine_optimization_mode (thresholds self') (cardinality_count d)).
    reflexivity.
Qed.

Lemma observer_cycle_keeps_thresholds (input : CycleInput) (st : LoopState) :
  thresholds (observer (fst (observer_cycle input st))) = thresholds (observer st).
Proof.
  unfold observer_cycle.
  destruct (get_cardinality_metrics (response input) (now input)) as [d|];
    [|reflexivity].
  pose proof (generate_keeps_thresholds (now input) (observer st) d) as Hk.
  destruct (generate_control_signal (now input) (observer st) d) as [[s|] self'].
  - destruct (write_control_signal (fault input) (file_system st) s)
      as [[success fs'] wl].
    destruct (determine_optimization_mode (thresholds self') (cardinality_count d)).
    exact Hk.
  - destruct (determine_optimization_mode (thresholds self') (cardinality_count d)).
    exact Hk.
Qed.

Lemma run_cycles_all (inputs : list CycleInput) :
  forall st : LoopState,
    cycles_run (snd (run_cycles inputs st)) = length inputs
    /\ thresholds (observer (fst (run_cycles inputs st))) = thresholds (observer st).
Proof.
  induction inputs as [|input rest IH]; intros st; [split; reflexivity|].
  cbn [run_cycles].
  pose proof (observer_cycle_logs_one_iteration input st) as H1.
  pose proof (observer_cycle_keeps_thresholds input st) as H2.
  destruct (observer_cycle input st) as [st1 log1].
  destruct (IH st1) as [IH1 IH2].
  destruct (run_cycles rest st1) as [st2 log2].
  cbn [fst snd length] in *. rewrite cycles_run_app, H1, IH1, IH2. auto.
Qed.






(** How the process does end with a failure: a NaN threshold makes [int]
    raise in the first cycle that has a sample to classify, and a negative
    interval makes [time.sleep] raise at the end of the first cycle.  The
    legacy script then ends with status 1, after that cycle has run; the
    toolkit reports the exception and ends with status 0. *)
Example nan_threshold_fails_in_first_cycle :
  Observer64.exit_status (Observer64.main nan_args empty_store64 [retry_input]) = 1
  /\ Observer64.uncaught (Observer64.main nan_args empty_store64 [retry_input])
     = Some ValueError
  /\ cycles_run (Observer64.output
                   (Observer64.main nan_args empty_store64 [retry_input]))
     = 1%nat
  /\ Observer64.exit_status
       (Observer64.toolkit_observe nan_args empty_store64 [retry_input]) = 0
  /\ Observer64.printed_error
       (Observer64.toolkit_observe nan_args empty_store64 [retry_input])
     = Some ValueError.
Proof. repeat split; vm_compute; reflexivity. Qed.

Example negative_interval_fails_after_first_cycle :
  Observer64.exit_status
    (Observer64.main negative_interval_args empty_store64
       [retry_input; retry_input]) = 1
  /\ Observer64.uncaught
       (Observer64.main negative_interval_args empty_store64
          [retry_input; retry_input]) = Some ValueError
  /\ cycles_run (Observer64.output
                   (Observer64.main negative_interval_args empty_store64
                      [retry_input; retry_input]))
     = 1%nat.
Proof. repeat split; vm_compute; reflexivity. Qed.

(** ** The estimator on malformed lines (C8) *)

Lemma split_cons (sep : ascii) (s : string) :
  exists piece pieces, split sep s = piece :: pieces.
Proof.
  induction s as [|c rest IH]; cbn; [eauto|].
  destruct (Ascii.eqb c sep); [eauto|].
  destruct IH as (p & ps & ->). eauto.
Qed.

(** A string that holds the separator splits into two pieces at least, so
    the index [1] of the source is in range. *)
Lemma split_contains (sep : ascii) (s : string) :
  contains sep s = true ->
  exists first second pieces, split sep s = first :: second :: pieces.
Proof.
  induction s as [|c rest IH]; cbn; [discriminate|].
  destruct (Ascii.eqb c sep) eqn:E; cbn.
  - intros _. destruct (split_cons sep rest) as (p & ps & ->). eauto.
  - intros H. destruct (IH H) as (a & b & ps & ->). eauto.
Qed.

(** No line makes the key extraction raise. *)
Lemma series_key_total (metric_line : string) : is_Some (series_key metric_line).
Proof.
  unfold series_key. destruct (contains "{" metric_line) eqn:E.
  - destruct (split_contains _ _ E) as (a & b & ps & ->). cbn.
    destruct (split_cons "}" b) as (p & qs & ->). cbn. eauto.
  - destruct (split_cons " " metric_line) as (p & ps & ->). cbn. eauto.
Qed.

(** The loop over the lines completes, keeps what the set held and adds the
    key of every line. *)
Lemma collect_series_spec (lines : list string) :
  forall acc : gset string,
  exists unique_series,
    collect_series lines acc = Some unique_series
    /\ acc ⊆ unique_series
    /\ (forall metric_line, In metric_line lines ->
          exists key, series_key metric_line = Some key /\ key ∈ unique_series).
Proof.
  induction lines as [|l rest IH]; intros acc.
  - exists acc. cbn. split; [reflexivity|]. split; [set_solver | tauto].
  - cbn [collect_series]. destruct (series_key_total l) as [k Hk].
    rewrite Hk. cbn. destruct (IH ({[k]} ∪ acc)) as (u & Hu & Hsub & Hall).
    exists u. split; [exact Hu|]. split; [set_solver|].
    intros ml [<-|Hin].
    + exists k. split; [exact Hk | set_solver].
    + now apply Hall.
Qed.

(** A string without the separator is its own single piece. *)
Lemma split_absent (sep : ascii) (s : string) :
  contains sep s = false -> split sep s = [s].
Proof.
  induction s as [|c rest IH]; cbn; [reflexivity|].
  intros H. apply orb_false_iff in H as [Hc Hrest].
  rewrite Hc, (IH Hrest). reflexivity.
Qed.

(** Splitting does not create characters: a character absent from the
    string is absent from every piece. *)
Lemma split_pieces_lack (c sep : ascii) (s : string) :
  contains c s = false ->
  Forall (fun piece => contains c piece = false) (split sep s).
Proof.
  induction s as [|a rest IH]; cbn; intros H.
  - repeat constructor.
  - apply orb_false_iff in H as [Ha Hrest]. specialize (IH Hrest).
    destruct (Ascii.eqb a sep).
    + constructor; [reflexivity | exact IH].
    + destruct (split sep rest) as [|p ps]; [repeat constructor; cbn; now rewrite Ha|].
      inversion IH as [|? ? Hp Hps]; subst.
      constructor; [cbn; now rewrite Ha, Hp | exact Hps].
Qed.

(** The key of a line that opens a label block and never closes it: the
    text before the first opening brace, ["#"], and the text after it up to
    the next opening brace or the end of the line. *)
Lemma series_key_unclosed (metric_line : string) :
  contains "{" metric_line = true -> contains "}" metric_line = false ->
  exists metric_name labels_part pieces,
    split "{" metric_line = metric_name :: labels_part :: pieces
    /\ series_key metric_line = Some (metric_name +:+ "#" +:+ labels_part).
Proof.
  intros Hopen Hclose. unfold series_key. rewrite Hopen.
  destruct (split_contains _ _ Hopen) as (a & b & ps & E).
  pose proof (split_pieces_lack "}" "{" metric_line Hclose) as Hl.
  rewrite E in Hl |- *. inversion Hl as [|? ? _ Hl']; subst.
  inversion Hl' as [|? ? Hb _]; subst.
  exists a, b, ps. split; [reflexivity|]. cbn.
  rewrite (split_absent _ _ Hb). reflexivity.
Qed.

(** C8, as the code has it.  For every scrape text the estimator returns a
    sample and never raises.  No qualifying line is skipped: every line of
    the monitored namespace, well-formed or not, is counted in the total,
    and its key is in the set whose size is the distinct count; a line with
    an opening brace and no closing brace is keyed by the text before the
    brace and the text after it. *)
Theorem estimator_total_and_counts_every_line (metrics_text : string) (t : Z) :
  exists (cardinality_data : CardinalityData) (unique_series : gset string),
    get_cardinality_metrics (Some metrics_text) t = Some cardinality_data
    /\ collect_series (phoenix_metrics metrics_text) ∅ = Some unique_series
    /\ cardinality_count cardinality_data = Z.of_nat (size unique_series)
    /\ total_metrics cardinality_data
       = Z.of_nat (length (phoenix_metrics metrics_text))
    /\ (forall metric_line,
          In metric_line (split newline metrics_text) ->
          qualifies metric_line = true ->
          In metric_line (phoenix_metrics metrics_text)
          /\ (exists key,
                series_key metric_line = Some key /\ key ∈ unique_series)
          /\ 1 <= total_metrics cardinality_data
          /\ 1 <= cardinality_count cardinality_data
          /\ (contains "{" metric_line = true ->
              contains "}" metric_line = false ->
              exists metric_name labels_part pieces,
                split "{" metric_line = metric_name :: labels_part :: pieces
                /\ (metric_name +:+ "#" +:+ labels_part) ∈ unique_series)).
Proof.
  destruct (collect_series_spec (phoenix_metrics metrics_text) ∅)
    as (u & Hu & _ & Hall).
  eexists _, u. unfold get_cardinality_metrics. cbn. rewrite Hu. cbn.
  split; [reflexivity|]. split; [reflexivity|].
  split; [reflexivity|]. split; [reflexivity|].
  intros l Hin Hq.
  assert (Hp : In l (phoenix_metrics metrics_text))
    by (unfold phoenix_metrics; apply List.filter_In; auto).
  destruct (Hall l Hp) as (k & Hk & Hku).
  split; [exact Hp|]. split; [eauto|].
  cbn [cardinality_count total_metrics]. split; [|split].
  - destruct (phoenix_metrics metrics_text); [destruct Hp | cbn [length]; lia].
  - assert (size u <> 0%nat); [|lia].
    intros Hz. apply size_empty_inv in Hz. set_solver.
  - intros Hopen Hclose.
    destruct (series_key_unclosed l Hopen Hclose) as (a & b & ps & E & Hkey).
    exists a, b, ps. split; [exact E|]. congruence.
Qed.

(** C8 as stated fails on the skipping: a scrape whose only line is of the
    monitored namespace and opens a label block without closing it yields
    one distinct series and one total series, where the scrape without the
    line yields none. *)
Lemma unclosed_brace_line_counted_counterexample :
  qualifies unclosed_line = true
  /\ contains "{" unclosed_line = true
  /\ contains "}" unclosed_line = false
  /\ series_key unclosed_line = Some "phoenix_x#a=1 7"
  /\ get_cardinality_metrics (Some unclosed_line) 0
     = Some {| cardinality_count := 1; total_metrics := 1; timestamp := 0;
               sample_metrics := ["phoenix_x#a=1 7"] |}
  /\ get_cardinality_metrics (Some "") 0
     = Some {| cardinality_count := 0; total_metrics := 0; timestamp := 0;
               sample_metrics := [] |}
  /\ ~ (exists cardinality_data,
          get_cardinality_metrics (Some unclosed_line) 0 = Some cardinality_data
          /\ cardinality_count cardinality_data = 0
          /\ total_metrics cardinality_data = 0).
Proof.
  repeat match goal with |- _ /\ _ => split end; try (vm_compute; reflexivity).
  intros (d & Hd & Hc & _). vm_compute in Hd. injection Hd as <-.
  discriminate.
Qed.

(** * Further properties of the observer *)

(** ** The classifier *)

(** X1.  Whatever the thresholds, ordered or not, the level lies in the
    band of the mode: 0 for [moderate], 26 to 75 for [adaptive], 76 to 100
    for [ultra]. *)
Theorem level_in_band_of_mode (th : Thresholds) (c : Z) :
  match determine_optimization_mode th c with
  | (moderate, level) => level = 0
  | (adaptive, level) => 26 <= level <= 75
  | (ultra, level) => 76 <= level <= 100
  end.
Proof.
  unfold determine_optimization_mode.
  repeat match goal with
         | |- context [if ?b then _ else _] => destruct b
         end; cbv zeta; lia.
Qed.



(** X4.  For strictly ordered thresholds every count at or above the ultra
    threshold is classified [ultra] with level 100. *)
Theorem saturates_at_or_above_ultra (th : Thresholds) (c : Z) :
  strictly_ordered th ->
  (th_ultra th <= inject_Z c)%Q ->
  determine_optimization_mode th c = (ultra, 100).
Proof.
  intros [Hma Hau] U. apply classify_ultra_saturated; lra.
Qed.

Lemma saturates_at_or_above_ultra_witness :
  determine_optimization_mode default_thresholds 450 = (ultra, 100).
Proof.
  apply (saturates_at_or_above_ultra default_thresholds 450).
  - exact default_thresholds_ordered.
  - discriminate.
Defined.



(** ** The estimator *)

Lemma append_nil (b : string) : "" +:+ b = b.
Proof. reflexivity. Qed.

Lemma append_cons (c : ascii) (a b : string) :
  String c a +:+ b = String c (a +:+ b).
Proof. reflexivity. Qed.

Lemma contains_app (c : ascii) (a b : string) :
  contains c (a +:+ b) = contains c a || contains c b.
Proof.
  induction a as [|d a IH]; [reflexivity|].
  rewrite append_cons. cbn [contains]. rewrite IH. now rewrite orb_assoc.
Qed.

(** Splitting a text whose head lacks the separator: the head stays glued
    to the first piece of the rest. *)
Lemma split_app_head (sep : ascii) (a b : string) :
  contains sep a = false ->
  exists r rs, split sep b = r :: rs /\ split sep (a +:+ b) = (a +:+ r) :: rs.
Proof.
  induction a as [|c a IH]; intros H.
  - destruct (split_cons sep b) as (r & rs & E). exists r, rs.
    rewrite !append_nil. now rewrite E.
  - cbn [contains] in H. apply orb_false_iff in H as [Hc Ha].
    destruct (IH Ha) as (r & rs & E1 & E2).
    exists r, rs. split; [exact E1|].
    rewrite !append_cons. cbn [split]. now rewrite Hc, E2.
Qed.

(** Splitting distributes over a separator. *)
Lemma split_app (sep : ascii) (a b : string) :
  split sep (a +:+ String sep b) = split sep a ++ split sep b.
Proof.
  induction a as [|c a IH].
  - rewrite append_nil. cbn [split]. now rewrite Ascii.eqb_refl.
  - rewrite append_cons. cbn [split]. rewrite IH.
    destruct (Ascii.eqb c sep); [reflexivity|].
    destruct (split_cons sep a) as (p & ps & ->). reflexivity.
Qed.

Lemma phoenix_metrics_app (a b : string) :
  phoenix_metrics (a +:+ String newline b) = phoenix_metrics a ++ phoenix_metrics b.
Proof. unfold phoenix_metrics. now rewrite split_app, List.filter_app. Qed.

Lemma phoenix_metrics_single (line : string) :
  contains newline line = false ->
  phoenix_metrics line = if qualifies line then [line] else [].
Proof.
  intros H. unfold phoenix_metrics. rewrite (split_absent _ _ H). reflexivity.
Qed.

(** The keys of the lines, in the order of the lines. *)
Lemma series_keys_total (lines : list string) :
  length (omap series_key lines) = length lines.
Proof.
  induction lines as [|l rest IH]; [reflexivity|].
  cbn. destruct (series_key_total l) as [k ->]. cbn. now rewrite IH.
Qed.

(** What the loop over the lines computes: the set of the keys. *)
Lemma collect_series_set (lines : list string) :
  forall acc : gset string,
    collect_series lines acc
    = Some (list_to_set (omap series_key lines) ∪ acc).
Proof.
  induction lines as [|l rest IH]; intros acc.
  - cbn. f_equal. set_solver.
  - destruct (series_key_total l) as [k Hk].
    cbn. rewrite !Hk. cbn. rewrite IH. f_equal. set_solver.
Qed.

Lemma size_list_to_set_le (keys : list string) :
  (size (list_to_set keys : gset string) <= length keys)%nat.
Proof.
  induction keys as [|k rest IH]; cbn.
  - now rewrite size_empty.
  - rewrite size_union_alt, size_singleton.
    assert (size (list_to_set rest ∖ {[k]} : gset string)
            <= size (list_to_set rest : gset string))%nat
      by (apply subseteq_size; set_solver).
    lia.
Qed.

Lemma get_cardinality_metrics_eq (metrics_text : string) (t : Z) :
  get_cardinality_metrics (Some metrics_text) t
  = Some {| cardinality_count :=
              Z.of_nat (size (list_to_set
                                (omap series_key (phoenix_metrics metrics_text))
                              : gset string));
            total_metrics := Z.of_nat (length (phoenix_metrics metrics_text));
            timestamp := t;
            sample_metrics :=
              take 5 (elements (list_to_set
                                  (omap series_key (phoenix_metrics metrics_text))
                                : gset string)) |}.
Proof.
  unfold get_cardinality_metrics. cbn.
  rewrite collect_series_set. cbn.
  replace (list_to_set (omap series_key (phoenix_metrics metrics_text)) ∪ ∅)
    with (list_to_set (omap series_key (phoenix_metrics metrics_text))
          : gset string) by set_solver.
  reflexivity.
Qed.

Lemma sample_counts_facts (metrics_text : string) (t : Z) :
  exists cardinality_data,
    get_cardinality_metrics (Some metrics_text) t = Some cardinality_data
    /\ 0 <= cardinality_count cardinality_data <= total_metrics cardinality_data
    /\ (length (sample_metrics cardinality_data) <= 5)%nat
    /\ Z.of_nat (length (sample_metrics cardinality_data))
       <= cardinality_count cardinality_data.
Proof.
  eexists. split; [apply get_cardinality_metrics_eq|].
  cbn [cardinality_count total_metrics sample_metrics].
  pose proof (size_list_to_set_le (omap series_key (phoenix_metrics metrics_text)))
    as Hle.
  rewrite series_keys_total in Hle.
  rewrite length_take.
  change (length (elements ?X)) with (size X).
  repeat split; lia.
Qed.

(** X6.  For every scrape the distinct count is between 0 and the total
    count (equal keys are counted once), and the sample of keys holds at
    most five keys and no more than there are distinct series. *)
Theorem distinct_count_at_most_total (metrics_text : string) (t : Z) :
  exists cardinality_data,
    get_cardinality_metrics (Some metrics_text) t = Some cardinality_data
    /\ 0 <= cardinality_count cardinality_data <= total_metrics cardinality_data
    /\ (length (sample_metrics cardinality_data) <= 5)%nat
    /\ Z.of_nat (length (sample_metrics cardinality_data))
       <= cardinality_count cardinality_data.
Proof. exact (sample_counts_facts metrics_text t). Qed.

(** X7.  A line outside the monitored namespace (a comment, a blank line,
    a metric of another prefix) changes nothing: the scrape with such a line
    appended or put in front gives the same sample. *)
Theorem foreign_line_ignored (metrics_text line : string) (t : Z) :
  qualifies line = false -> contains newline line = false ->
  get_cardinality_metrics (Some (metrics_text +:+ String newline line)) t
  = get_cardinality_metrics (Some metrics_text) t
  /\ get_cardinality_metrics (Some (line +:+ String newline metrics_text)) t
     = get_cardinality_metrics (Some metrics_text) t.
Proof.
  intros Hq Hn.
  pose proof (phoenix_metrics_single line Hn) as Hs. rewrite Hq in Hs.
  rewrite !get_cardinality_metrics_eq, !phoenix_metrics_app, Hs, app_nil_r.
  split; reflexivity.
Qed.

Lemma foreign_line_ignored_witness :
  get_cardinality_metrics
    (Some (two_series_text +:+ String newline "# TYPE phoenix_b gauge"))
    1700000000
  = Some two_series_sample.
Proof.
  destruct (foreign_line_ignored two_series_text "# TYPE phoenix_b gauge"
              1700000000) as [H _].
  - reflexivity.
  - reflexivity.
  - rewrite H. reflexivity.
Defined.

(** X8.  A qualifying line that occurs again raises the total by one and
    leaves the distinct count as it was. *)
Theorem repeated_line_counted_once (metrics_text line : string) (t : Z)
    (cardinality_data : CardinalityData) :
  contains newline line = false ->
  In line (phoenix_metrics metrics_text) ->
  get_cardinality_metrics (Some metrics_text) t = Some cardinality_data ->
  exists cardinality_data',
    get_cardinality_metrics (Some (metrics_text +:+ String newline line)) t
    = Some cardinality_data'
    /\ cardinality_count cardinality_data' = cardinality_count cardinality_data
    /\ total_metrics cardinality_data' = total_metrics cardinality_data + 1.
Proof.
  intros Hn Hin Hget.
  assert (Hq : qualifies line = true).
  { unfold phoenix_metrics in Hin. now apply List.filter_In in Hin as [_ Hq]. }
  pose proof (phoenix_metrics_single line Hn) as Hs. rewrite Hq in Hs.
  rewrite get_cardinality_metrics_eq in Hget. injection Hget as <-.
  eexists. split; [apply get_cardinality_metrics_eq|].
  cbn [cardinality_count total_metrics].
  rewrite phoenix_metrics_app, Hs, omap_app, length_app. cbn [length].
  split; [|lia].
  do 2 f_equal. destruct (series_key_total line) as [k Hk].
  cbn. rewrite Hk.
  assert (Hk' : k ∈ omap series_key (phoenix_metrics metrics_text)).
  { apply list_elem_of_omap. exists line. split; [|exact Hk].
    now apply list_elem_of_In. }
  apply set_eq. intros x. rewrite !elem_of_list_to_set, elem_of_app.
  rewrite list_elem_of_singleton. split; [intros [?| ->]; assumption | auto].
Qed.

Lemma repeated_line_counted_once_witness :
  exists cardinality_data',
    get_cardinality_metrics
      (Some (two_series_text +:+ String newline "phoenix_a 1")) 1700000000
    = Some cardinality_data'
    /\ cardinality_count cardinality_data' = cardinality_count two_series_sample
    /\ total_metrics cardinality_data' = total_metrics two_series_sample + 1.
Proof.
  apply (repeated_line_counted_once two_series_text "phoenix_a 1" 1700000000
           two_series_sample).
  - reflexivity.
  - vm_compute. tauto.
  - reflexivity.
Defined.

(** X9.  The key of a line with a label block is the metric name, ["#"]
    and the label text as written; the value and whatever else follows the
    closing brace plays no part. *)
Theorem series_key_of_labelled_line (name labels rest : string) :
  contains "{" name = false ->
  contains "{" labels = false -> contains "}" labels = false ->
  series_key (name +:+ String "{" (labels +:+ String "}" rest))
  = Some (name +:+ "#" +:+ labels).
Proof.
  intros Hname Hopen Hclose. unfold series_key.
  rewrite contains_app. cbn [contains]. rewrite Ascii.eqb_refl, orb_true_r.
  rewrite split_app, (split_absent _ _ Hname). cbn [app lookup list_lookup].
  destruct (split_app_head "{" labels (String "}" rest) Hopen)
    as (r & rs & E1 & E2).
  rewrite E2. cbn [lookup list_lookup mbind option_bind].
  cbn [split] in E1. change (Ascii.eqb "}" "{") with false in E1.
  destruct (split_cons "{" rest) as (p & ps & Ep). rewrite Ep in E1.
  injection E1 as <- <-.
  rewrite split_app, (split_absent _ _ Hclose). reflexivity.
Qed.

Lemma series_key_of_labelled_line_witness :
  series_key "phoenix_b{job=x} 2" = Some "phoenix_b#job=x".
Proof.
  apply (series_key_of_labelled_line "phoenix_b" "job=x" " 2"); reflexivity.
Defined.

(** X10.  The key of a line without a label block is the text before the
    first space. *)
Theorem series_key_of_plain_line (name value : string) :
  contains "{" name = false -> contains " " name = false ->
  contains "{" value = false ->
  series_key (name +:+ String " " value) = Some name.
Proof.
  intros Hname Hspace Hvalue. unfold series_key.
  rewrite contains_app. cbn [contains]. rewrite Hname, Hvalue.
  change (Ascii.eqb " " "{") with false. cbn [orb].
  rewrite split_app, (split_absent _ _ Hspace). reflexivity.
Qed.

Lemma series_key_of_plain_line_witness :
  series_key "phoenix_a 1" = Some "phoenix_a".
Proof.
  apply (series_key_of_plain_line "phoenix_a" "1"); reflexivity.
Defined.

(** ** The signal generator over sequences *)

(** X11.  If the mode the observer holds is the classification of the
    count it holds, this is still so after any sequence of invocations of
    the generator. *)
Theorem mode_stays_consistent_with_last_count
    (samples : list (Z * CardinalityData)) (self : Observer) :
  mode_consistent self ->
  mode_consistent (snd (generate_all self samples)).
Proof.
  revert self. induction samples as [|[t d] rest IH]; intros self Hc.
  - exact Hc.
  - rewrite generate_all_cons. cbn [snd]. apply IH.
    destruct (generate_cases self d) as [H|[[H1 H2]|[H1 H2]]].
    + destruct (generate_on_transition t self d H) as (s & -> & _). reflexivity.
    + destruct (generate_on_magnitude t self d H1 H2) as (s & -> & _). reflexivity.
    + now rewrite (generate_on_quiet t self d H1 H2).
Qed.

Lemma mode_stays_consistent_with_last_count_witness :
  mode_consistent
    (snd (generate_all example_observer
            [(1700000000, example_sample 400); (1700000030, example_sample 320)])).
Proof.
  apply (mode_stays_consistent_with_last_count
           [(1700000000, example_sample 400); (1700000030, example_sample 320)]
           example_observer).
  reflexivity.
Defined.

(** X12.  The band of 50 is anchored at the count of the last emission,
    not at the previous sample: a sequence of samples that all classify to
    the current mode and all lie within 50 of the held count emits nothing,
    however long it is, and leaves the observer as it was. *)
Theorem samples_within_band_emit_nothing
    (samples : list (Z * CardinalityData)) (self : Observer) :
  Forall (fun sample => within_band self (snd sample)) samples ->
  generate_all self samples = (replicate (length samples) None, self).
Proof.
  induction samples as [|[t d] rest IH]; intros Hall; [reflexivity|].
  inversion Hall as [|? ? [H1 H2] Hrest]; subst.
  rewrite generate_all_cons, (generate_on_quiet t self d H1 H2).
  cbn [fst snd]. rewrite (IH Hrest). reflexivity.
Qed.

Lemma samples_within_band_emit_nothing_witness :
  generate_all example_observer
    [(1, example_sample 10); (2, example_sample 50); (3, example_sample 30)]
  = ([None; None; None], example_observer).
Proof.
  apply (samples_within_band_emit_nothing
           [(1, example_sample 10); (2, example_sample 50); (3, example_sample 30)]
           example_observer).
  repeat constructor; cbn; lia.
Defined.

(** X13.  An emitted signal describes the classification of its sample:
    mode and level are the classifier's, the level lies between 0 and 100,
    the count, the thresholds and the time are those of the invocation, the
    previous mode is the mode the observer held, and the signal records a
    counter one above the observer's exactly when its mode differs from the
    previous mode. *)
Theorem emitted_signal_describes_classification (t : Z) (self : Observer)
    (d : CardinalityData) (control_signal : ControlSignal) :
  fst (generate_control_signal t self d) = Some control_signal ->
  (mode control_signal, optimization_level control_signal)
  = determine_optimization_mode (thresholds self) (cardinality_count d)
  /\ 0 <= optimization_level control_signal <= 100
  /\ ts_count control_signal = cardinality_count d
  /\ signal_thresholds control_signal = thresholds self
  /\ config_version control_signal = t
  /\ total_phoenix_metrics (cardinality_analysis control_signal) = total_metrics d
  /\ previous_mode (state control_signal) = current_mode self
  /\ stability_period_seconds (state control_signal) = 300
  /\ (mode control_signal <> previous_mode (state control_signal)
      <-> mode_changes_total (state control_signal) = mode_change_count self + 1)
  /\ (mode control_signal = previous_mode (state control_signal)
      <-> mode_changes_total (state control_signal) = mode_change_count self).
Proof.
  pose proof (level_range (thresholds self) (cardinality_count d)) as Hr.
  unfold generate_control_signal.
  destruct (determine_optimization_mode (thresholds self) (cardinality_count d))
    as [m lvl].
  cbn [snd] in Hr.
  destruct (bool_decide (m = current_mode self)) eqn:Em; cbn [negb orb].
  - apply bool_decide_eq_true_1 in Em.
    destruct (50 <? Z.abs (cardinality_count d - last_cardinality_count self));
      cbn [fst]; intros [= <-]; cbn.
    repeat split; try reflexivity; try lia; try congruence.
  - apply bool_decide_eq_false_1 in Em.
    cbn [fst]. intros [= <-]. cbn.
    repeat split; try reflexivity; try lia; try congruence.
Qed.

Lemma emitted_signal_describes_classification_witness :
  (mode low_signal, optimization_level low_signal) = (adaptive, 75)
  /\ previous_mode (state low_signal) = moderate.
Proof.
  destruct (emitted_signal_describes_classification (now failing_input)
              (observer low_state) two_series_sample low_signal eq_refl)
    as (H1 & _ & _ & _ & _ & _ & H2 & _).
  split; [rewrite H1; reflexivity | rewrite H2; reflexivity].
Defined.

Lemma emitted_cons (signal : option ControlSignal)
    (signals : list (option ControlSignal)) :
  emitted (signal :: signals)
  = ((match signal with Some _ => 1 | None => 0 end) + emitted signals)%nat.
Proof. unfold emitted. destruct signal; reflexivity. Qed.

(** X14.  Over every sequence of invocations the mode-change counter never
    goes down, rises by no more than the number of signals emitted, and no
    more signals are emitted than there are invocations. *)
Theorem counter_bounded_by_emissions (samples : list (Z * CardinalityData))
    (self : Observer) :
  mode_change_count self <= mode_change_count (snd (generate_all self samples))
  /\ mode_change_count (snd (generate_all self samples))
     <= mode_change_count self
        + Z.of_nat (emitted (fst (generate_all self samples)))
  /\ (emitted (fst (generate_all self samples)) <= length samples)%nat.
Proof.
  revert self. induction samples as [|[t d] rest IH]; intros self.
  - cbn. lia.
  - rewrite generate_all_cons. cbn [fst snd length]. rewrite emitted_cons.
    destruct (IH (snd (generate_control_signal t self d))) as (I1 & I2 & I3).
    destruct (generate_cases self d) as [H|[[H1 H2]|[H1 H2]]].
    + destruct (generate_on_transition t self d H) as (s & E & _).
      rewrite E in *. cbn [fst snd mode_change_count] in *. lia.
    + destruct (generate_on_magnitude t self d H1 H2) as (s & E & _).
      rewrite E in *. cbn [fst snd mode_change_count] in *. lia.
    + rewrite (generate_on_quiet t self d H1 H2) in *.
      cbn [fst snd] in *. lia.
Qed.

(** ** The signal store *)

(** X15.  When no signal file exists yet, the backup step is skipped: the
    backup file is left as it is, a fault of the backup step cannot strike,
    and unless the write of the signal itself fails the write succeeds. *)
Theorem first_write_skips_backup (fault : Fault) (fs : FileSystem)
    (control_signal : ControlSignal) :
  control_file fs = None ->
  backup_file (snd (fst (write_control_signal fault fs control_signal)))
  = backup_file fs
  /\ (main_fault fault = false ->
      write_control_signal fault fs control_signal
      = (true,
         {| control_file := Some (YamlDump control_signal);
            backup_file := backup_file fs |},
         [LogSignalWritten (mode control_signal) (ts_count control_signal)
            (optimization_level control_signal)])).
Proof.
  intros Hnone. unfold write_control_signal, create_backup, write_new_signal.
  rewrite Hnone. destruct fault; cbn; split; try reflexivity; try discriminate;
    intros _; reflexivity.
Qed.

Lemma first_write_skips_backup_witness :
  write_control_signal OpenBackupFails empty_store example_signal
  = (true,
     {| control_file := Some (YamlDump example_signal); backup_file := None |},
     [LogSignalWritten ultra 400 84]).
Proof.
  destruct (first_write_skips_backup OpenBackupFails empty_store example_signal
              eq_refl) as [_ H].
  exact (H eq_refl).
Defined.

(** X16.  After two writes in a row without a fault the signal file holds
    the second signal and the backup holds the first: the backup is always
    one write behind, whatever the files held before. *)
Theorem second_write_backs_up_first (fs : FileSystem)
    (first second : ControlSignal) :
  let fs1 := snd (fst (write_control_signal NoFault fs first)) in
  fst (fst (write_control_signal NoFault fs1 second)) = true
  /\ snd (fst (write_control_signal NoFault fs1 second))
     = {| control_file := Some (YamlDump second);
          backup_file := Some (YamlDump first) |}.
Proof.
  unfold write_control_signal, create_backup, write_new_signal.
  destruct (control_file fs); cbn; split; reflexivity.
Qed.

(** X17.  What a write leaves behind.  If it reports success, the signal
    file holds the new signal and the backup holds what the signal file held
    before (or is untouched when there was no signal file).  If it reports
    failure, the error is logged and the signal file either is as it was or
    is left incomplete; it is not replaced as a whole by the new one. *)
Theorem write_outcome (fault : Fault) (fs : FileSystem)
    (control_signal : ControlSignal) :
  let '(success, fs', log) := write_control_signal fault fs control_signal in
  (success = true ->
   control_file fs' = Some (YamlDump control_signal)
   /\ backup_file fs'
      = match control_file fs with
        | Some previous => Some previous
        | None => backup_file fs
        end)
  /\ (success = false ->
      log = [LogWriteError]
      /\ (control_file fs' = control_file fs
          \/ control_file fs' = Some Incomplete)).
Proof.
  unfold write_control_signal, create_backup, write_new_signal.
  destruct (control_file fs) as [previous|] eqn:E; destruct fault; cbn;
    rewrite ?E; (split; intros Hs; try discriminate Hs); split;
    try reflexivity; auto.
Qed.

(** ** The control loop *)

Lemma write_without_fault (fs : FileSystem) (control_signal : ControlSignal) :
  fst (fst (write_control_signal NoFault fs control_signal)) = true
  /\ control_file (snd (fst (write_control_signal NoFault fs control_signal)))
     = Some (YamlDump control_signal).
Proof.
  unfold write_control_signal, create_backup, write_new_signal.
  destruct (control_file fs); cbn; split; reflexivity.
Qed.

Lemma healthy_emitting_cycle_facts (input : CycleInput)
    (st : LoopState) (d : CardinalityData) :
  get_cardinality_metrics (response input) (now input) = Some d ->
  is_Some (fst (generate_control_signal (now input) (observer st) d)) ->
  fault input = NoFault ->
  synced (fst (observer_cycle input st))
  /\ In LogWriteSucceeded (snd (observer_cycle input st)).
Proof.
  intros Hget [s Hs] Hf.
  destruct (generate_control_signal (now input) (observer st) d)
    as [o self'] eqn:Hgen.
  cbn [fst] in Hs. subst o.
  pose proof (emitting_cycle input st d s self' Hget Hgen) as Hc.
  cbv zeta in Hc. rewrite Hf in Hc.
  destruct (write_without_fault (file_system st) s) as [Hok Hfile].
  rewrite Hok in Hc.
  destruct (determine_optimization_mode (thresholds self') (cardinality_count d)).
  rewrite Hc. cbn [fst snd].
  destruct (generate_some_committed _ _ _ _ _ Hgen) as (Hm & Hl & _).
  split.
  - exists s. cbn [file_system observer]. auto.
  - apply in_or_app. right. apply in_or_app. left.
    apply in_or_app. right. apply in_or_app. right. now left.
Qed.



Lemma healthy_cycle (input : CycleInput) (st : LoopState) :
  fault input = NoFault ->
  synced (fst (observer_cycle input st))
  \/ (observer (fst (observer_cycle input st)) = observer st
      /\ file_system (fst (observer_cycle input st)) = file_system st).
Proof.
  intros Hf.
  destruct (get_cardinality_metrics (response input) (now input)) as [d|] eqn:Hget.
  - destruct (fst (generate_control_signal (now input) (observer st) d))
      as [s|] eqn:Hs.
    + left. eapply healthy_emitting_cycle_facts; eauto.
    + right. now apply (quiet_cycle_unchanged input st d).
  - right. unfold observer_cycle. rewrite Hget. split; reflexivity.
Qed.

(** X19.  While the store is healthy, being in step is kept: if the signal
    file holds a signal that agrees with the mode and the count of the
    observer, it still does after any number of cycles without a write
    fault, whatever the polls return. *)
Theorem healthy_store_stays_in_step (inputs : list CycleInput) (st : LoopState) :
  Forall (fun input => fault input = NoFault) inputs ->
  synced st ->
  synced (fst (run_cycles inputs st)).
Proof.
  revert st. induction inputs as [|input rest IH]; intros st Hall Hs.
  - exact Hs.
  - inversion Hall as [|? ? Hf Hrest]; subst.
    cbn [run_cycles].
    pose proof (healthy_cycle input st Hf) as Hstep.
    destruct (observer_cycle input st) as [st1 log1]. cbn [fst] in Hstep.
    specialize (IH st1 Hrest).
    destruct (run_cycles rest st1) as [st2 log2]. cbn [fst] in *.
    apply IH. destruct Hstep as [H|[Ho Hfs]]; [exact H|].
    destruct Hs as (s & H1 & H2 & H3). exists s.
    rewrite Ho, Hfs. auto.
Qed.

Lemma healthy_store_stays_in_step_witness :
  synced (fst (run_cycles [retry_input; retry_input]
                 (fst (observer_cycle retry_input low_state)))).
Proof.
  apply (healthy_store_stays_in_step [retry_input; retry_input]).
  - repeat constructor.
  - exists retry_signal. vm_compute. auto.
Defined.

(** X20.  Polls that fail change nothing but the iteration number: after
    any run of cycles whose fetch fails, the observer and both files are as
    before, and every one of the cycles was counted and logged. *)
Theorem failed_polls_change_nothing (inputs : list CycleInput) (st : LoopState) :
  Forall (fun input => response input = None) inputs ->
  observer (fst (run_cycles inputs st)) = observer st
  /\ file_system (fst (run_cycles inputs st)) = file_system st
  /\ iteration (fst (run_cycles inputs st))
     = iteration st + Z.of_nat (length inputs)
  /\ cycles_run (snd (run_cycles inputs st)) = length inputs
  /\ Forall (fun event =>
               match event with
               | LogIteration _ | LogFetchError => True
               | _ => False
               end)
       (snd (run_cycles inputs st)).
Proof.
  revert st. induction inputs as [|input rest IH]; intros st Hall.
  - cbn. repeat split; try lia. constructor.
  - inversion Hall as [|? ? Hr Hrest]; subst.
    assert (Hc : observer_cycle input st
                 = ({| observer := observer st; file_system := file_system st;
                       iteration := iteration st + 1 |},
                    [LogIteration (iteration st + 1); LogFetchError])).
    { unfold observer_cycle. rewrite Hr. reflexivity. }
    cbn [run_cycles]. rewrite Hc.
    specialize (IH {| observer := observer st; file_system := file_system st;
                      iteration := iteration st + 1 |} Hrest).
    destruct (run_cycles rest _) as [st2 log2].
    cbn [fst snd observer file_system iteration length] in *.
    destruct IH as (I1 & I2 & I3 & I4 & I5).
    split; [exact I1|]. split; [exact I2|]. split; [lia|]. split.
    + rewrite cycles_run_app, I4. reflexivity.
    + repeat constructor. exact I5.
Qed.

Lemma failed_polls_change_nothing_witness :
  observer (fst (run_cycles
                   [{| response := None; now := 1; fault := NoFault |};
                    {| response := None; now := 2; fault := DumpFails |}]
                   low_state))
  = observer low_state.
Proof.
  destruct (failed_polls_change_nothing
              [{| response := None; now := 1; fault := NoFault |};
               {| response := None; now := 2; fault := DumpFails |}]
              low_state) as [H _].
  - repeat constructor.
  - exact H.
Defined.

(** * Properties of the toolkit's generator and demo *)

(** ** The batch of metrics *)

Lemma tally_app (select : Metric -> bool) (a b : list Metric) :
  tally select (a ++ b) = (tally select a + tally select b)%nat.
Proof. unfold tally. now rewrite List.filter_app, length_app. Qed.

Lemma repeat_body_tally (select : Metric -> bool)
    (body : Tape -> list Metric * Tape) (k : nat) :
  (forall tape, tally select (fst (body tape)) = k) ->
  forall (n : nat) (tape : Tape),
    tally select (fst (repeat_body n body tape)) = (n * k)%nat.
Proof.
  intros Hbody. induction n as [|n IH]; intros tape; [reflexivity|].
  cbn [repeat_body]. specialize (Hbody tape).
  destruct (body tape) as [metrics tape1]. specialize (IH tape1).
  destruct (repeat_body n body tape1) as [more tape2].
  cbn [fst] in *. rewrite tally_app, Hbody, IH. lia.
Qed.

Lemma repeat_body_length (body : Tape -> list Metric * Tape) (k : nat) :
  (forall tape, length (fst (body tape)) = k) ->
  forall (n : nat) (tape : Tape),
    length (fst (repeat_body n body tape)) = (n * k)%nat.
Proof.
  intros Hbody. induction n as [|n IH]; intros tape; [reflexivity|].
  cbn [repeat_body]. specialize (Hbody tape).
  destruct (body tape) as [metrics tape1]. specialize (IH tape1).
  destruct (repeat_body n body tape1) as [more tape2].
  cbn [fst] in *. rewrite length_app, Hbody, IH. lia.
Qed.

Lemma repeat_body_Forall (P : Metric -> Prop)
    (body : Tape -> list Metric * Tape) :
  (forall tape, Forall P (fst (body tape))) ->
  forall (n : nat) (tape : Tape), Forall P (fst (repeat_body n body tape)).
Proof.
  intros Hbody. induction n as [|n IH]; intros tape; [constructor|].
  cbn [repeat_body]. specialize (Hbody tape).
  destruct (body tape) as [metrics tape1]. specialize (IH tape1).
  destruct (repeat_body n body tape1) as [more tape2].
  cbn [fst] in *. apply Forall_app. split; assumption.
Qed.

(** Run the draws of a loop body, whatever they give. *)
Ltac run_draws :=
  repeat match goal with
         | |- context [choice ?xs ?t] => destruct (choice xs t) as [? ?]
         | |- context [randint ?a ?b ?t] => destruct (randint a b t) as [? ?]
         | |- context [uniform ?a ?b ?t] => destruct (uniform a b t) as [? ?]
         end.

Ltac body_fact body := intros ?; unfold body; run_draws; cbn.

Lemma batch_metric_intro (timestamp : Z) (name type : string) (value : Number)
    (labels : list (string * string)) :
  qualifies name = true ->
  In ("benchmark_id", "phoenix-vnext") labels ->
  batch_metric timestamp
    {| metric_name := name; metric_type := type; metric_value := value;
       metric_timestamp := timestamp; metric_labels := labels |}.
Proof. intros Hq Hl. repeat split; assumption. Qed.

Ltac batch_metrics :=
  repeat (apply Forall_cons_2;
          [apply batch_metric_intro; [reflexivity | cbn; tauto] |]);
  apply Forall_nil_2.

Lemma batch_has_200_metrics_facts (g : MetricsGenerator) (timestamp : Z)
    (tape : Tape) :
  let metrics := fst (generate_phoenix_metrics g timestamp tape) in
  length metrics = 200%nat
  /\ tally (of_type "counter") metrics = 100%nat
  /\ tally (of_type "histogram") metrics = 50%nat
  /\ tally (of_type "gauge") metrics = 50%nat
  /\ Forall (batch_metric timestamp) metrics.
Proof.
  cbv zeta. unfold generate_phoenix_metrics.
  pose proof (fun select k H =>
                repeat_body_tally select (request_metrics g timestamp) k H 50 tape)
    as T1.
  pose proof (repeat_body_length (request_metrics g timestamp) 2
                ltac:(body_fact request_metrics; reflexivity) 50 tape) as L1.
  pose proof (repeat_body_Forall (batch_metric timestamp)
                (request_metrics g timestamp)
                ltac:(body_fact request_metrics; batch_metrics) 50 tape) as F1.
  destruct (repeat_body 50 (request_metrics g timestamp) tape) as [r tape1].
  pose proof (fun select k H =>
                repeat_body_tally select (user_activity_metrics g timestamp) k H
                  30 tape1) as T2.
  pose proof (repeat_body_length (user_activity_metrics g timestamp) 1
                ltac:(body_fact user_activity_metrics; reflexivity) 30 tape1)
    as L2.
  pose proof (repeat_body_Forall (batch_metric timestamp)
                (user_activity_metrics g timestamp)
                ltac:(body_fact user_activity_metrics; batch_metrics) 30 tape1)
    as F2.
  destruct (repeat_body 30 (user_activity_metrics g timestamp) tape1)
    as [a tape2].
  pose proof (fun select k H =>
                repeat_body_tally select (system_metrics g timestamp) k H
                  25 tape2) as T3.
  pose proof (repeat_body_length (system_metrics g timestamp) 2
                ltac:(body_fact system_metrics; reflexivity) 25 tape2) as L3.
  pose proof (repeat_body_Forall (batch_metric timestamp)
                (system_metrics g timestamp)
                ltac:(body_fact system_metrics; batch_metrics) 25 tape2) as F3.
  destruct (repeat_body 25 (system_metrics g timestamp) tape2) as [s tape3].
  pose proof (fun select k H =>
                repeat_body_tally select (business_metrics g timestamp) k H
                  20 tape3) as T4.
  pose proof (repeat_body_length (business_metrics g timestamp) 1
                ltac:(body_fact business_metrics; reflexivity) 20 tape3) as L4.
  pose proof (repeat_body_Forall (batch_metric timestamp)
                (business_metrics g timestamp)
                ltac:(body_fact business_metrics; batch_metrics) 20 tape3) as F4.
  destruct (repeat_body 20 (business_metrics g timestamp) tape3) as [b tape4].
  cbn [fst] in *.
  split; [rewrite !length_app, L1, L2, L3, L4; reflexivity|].
  split.
  { rewrite !tally_app.
    rewrite (T1 (of_type "counter") 1%nat), (T2 (of_type "counter") 1%nat),
      (T3 (of_type "counter") 0%nat), (T4 (of_type "counter") 1%nat);
      first [reflexivity | body_fact request_metrics; reflexivity
            | body_fact user_activity_metrics; reflexivity
            | body_fact system_metrics; reflexivity
            | body_fact business_metrics; reflexivity]. }
  split.
  { rewrite !tally_app.
    rewrite (T1 (of_type "histogram") 1%nat), (T2 (of_type "histogram") 0%nat),
      (T3 (of_type "histogram") 0%nat), (T4 (of_type "histogram") 0%nat);
      first [reflexivity | body_fact request_metrics; reflexivity
            | body_fact user_activity_metrics; reflexivity
            | body_fact system_metrics; reflexivity
            | body_fact business_metrics; reflexivity]. }
  split.
  { rewrite !tally_app.
    rewrite (T1 (of_type "gauge") 0%nat), (T2 (of_type "gauge") 0%nat),
      (T3 (of_type "gauge") 2%nat), (T4 (of_type "gauge") 0%nat);
      first [reflexivity | body_fact request_metrics; reflexivity
            | body_fact user_activity_metrics; reflexivity
            | body_fact system_metrics; reflexivity
            | body_fact business_metrics; reflexivity]. }
  repeat (apply Forall_app; split); assumption.
Qed.

(** X21.  Whatever the random draws, a batch of the generator holds 200
    metrics: 100 counters, 50 histograms and 50 gauges.  Every one has a
    name of the namespace the observer monitors, the time stamp of the batch
    and the label [benchmark_id = phoenix-vnext]. *)
Theorem batch_has_200_metrics (collector_url : string) (timestamp : Z)
    (tape : Tape) :
  let metrics :=
    fst (generate_phoenix_metrics (new_generator collector_url) timestamp tape) in
  length metrics = 200%nat
  /\ tally (of_type "counter") metrics = 100%nat
  /\ tally (of_type "histogram") metrics = 50%nat
  /\ tally (of_type "gauge") metrics = 50%nat
  /\ Forall (batch_metric timestamp) metrics.
Proof.
  exact (batch_has_200_metrics_facts (new_generator collector_url) timestamp tape).
Qed.

(** ** The OTLP payload *)

Lemma data_points_by_type (metric : Metric) :
  data_points (to_otlp metric)
  = ((if of_type "counter" metric then 1 else 0)
     + (if of_type "gauge" metric then 1 else 0))%nat.
Proof.
  unfold data_points, to_otlp, of_type. cbn [otlp_data].
  destruct (String.eqb (metric_type metric) "counter") eqn:Ec.
  - apply String.eqb_eq in Ec. rewrite Ec. reflexivity.
  - destruct (String.eqb (metric_type metric) "gauge"); reflexivity.
Qed.

Lemma payload_facts (metrics : list Metric) :
  List.map otlp_name (otlp_metrics (otlp_payload metrics))
  = List.map metric_name metrics
  /\ payload_data_points (otlp_payload metrics)
     = (tally (of_type "counter") metrics + tally (of_type "gauge") metrics)%nat
  /\ Forall (fun metric =>
               of_type "counter" metric = false ->
               of_type "gauge" metric = false ->
               otlp_data (to_otlp metric) = OtlpNoData)
       metrics.
Proof.
  split; [|split].
  - unfold otlp_payload. cbn [otlp_metrics]. rewrite List.map_map. reflexivity.
  - unfold payload_data_points, otlp_payload. cbn [otlp_metrics].
    induction metrics as [|m rest IH]; [reflexivity|].
    cbn [List.map list_sum foldr].
    change (foldr Nat.add 0%nat ?l) with (list_sum l).
    rewrite IH, data_points_by_type. unfold tally. cbn [List.filter].
    destruct (of_type "counter" m), (of_type "gauge" m); cbn [length]; lia.
  - apply Forall_forall. intros m _ Hc Hg. unfold to_otlp, of_type in *.
    cbn [otlp_data]. now rewrite Hc, Hg.
Qed.

(** X22.  The payload lists every metric, in order and under its name, but
    only counters and gauges get a data point: a metric of any other type
    (the histograms of the generator among them) is sent as a name without a
    value.  The data points of a payload number as many as the counters and
    gauges of the batch. *)
Theorem payload_keeps_names_drops_other_types (metrics : list Metric) :
  List.map otlp_name (otlp_metrics (otlp_payload metrics))
  = List.map metric_name metrics
  /\ payload_data_points (otlp_payload metrics)
     = (tally (of_type "counter") metrics + tally (of_type "gauge") metrics)%nat
  /\ Forall (fun metric =>
               of_type "counter" metric = false ->
               of_type "gauge" metric = false ->
               otlp_data (to_otlp metric) = OtlpNoData)
       metrics.
Proof. exact (payload_facts metrics). Qed.

(** X23.  Whatever the random draws and whatever the collector answers,
    what the generator posts for a batch lists 200 metrics and carries 150
    data points: the 50 request durations are posted without a value. *)
Theorem batch_payload_has_150_data_points (collector_url : string)
    (timestamp : Z) (tape : Tape) (post : option (Z * string)) :
  let g := new_generator collector_url in
  let payload :=
    fst (send_metrics_to_collector post
           (fst (generate_phoenix_metrics g timestamp tape))) in
  length (otlp_metrics payload) = 200%nat
  /\ payload_data_points payload = 150%nat
  /\ tally (of_type "histogram") (fst (generate_phoenix_metrics g timestamp tape))
     = 50%nat.
Proof.
  cbv zeta. generalize (new_generator collector_url) as g. intros g.
  unfold send_metrics_to_collector. cbn [fst].
  destruct (batch_has_200_metrics_facts g timestamp tape) as (L & C & H & G & _).
  destruct (payload_facts (fst (generate_phoenix_metrics g timestamp tape)))
    as (_ & P & _).
  split; [|split].
  - unfold otlp_payload. cbn [otlp_metrics]. now rewrite length_map.
  - rewrite P, C, G. reflexivity.
  - exact H.
Qed.

(** ** The loop of the generator *)

Lemma generator_passes_unlimited (g : MetricsGenerator) (duration : option Z)
    (start_time : Q) (inputs : list GeneratorInput) :
  duration = None \/ duration = Some 0 ->
  forall iteration : Z,
    length (fst (generator_passes g duration start_time iteration inputs))
    = length inputs
    /\ ~ In LogGeneratorStopped
           (snd (generator_passes g duration start_time iteration inputs)).
Proof.
  intros Hd. induction inputs as [|input rest IH]; intros iteration.
  - cbn. tauto.
  - cbn [generator_passes].
    assert (E : duration_reached duration start_time input = false)
      by (destruct Hd as [-> | ->]; reflexivity).
    rewrite E.
    destruct (generate_phoenix_metrics g (batch_timestamp input) (tape input))
      as [metrics tape'].
    destruct (send_metrics_to_collector (post input) metrics) as [payload sent]
      eqn:Es.
    destruct (IH (iteration + 1)) as [I1 I2].
    destruct (generator_passes g duration start_time (iteration + 1) rest)
      as [payloads log].
    cbn [fst snd length] in *. split; [now rewrite I1|].
    intros [F|[F|[F|F]]]; try discriminate F; [|exact (I2 F)].
    unfold send_metrics_to_collector in Es. injection Es as _ <-.
    destruct (post input) as [[status text]|]; [|discriminate F].
    destruct (status =? 200); discriminate F.
Qed.

(** X24.  A duration of zero does not mean "do not run": like no duration
    at all it never ends the loop, which then posts one batch for every pass
    until it is interrupted. *)
Theorem zero_or_missing_duration_never_stops (collector_url : string)
    (duration : option Z) (start_time : Q) (inputs : list GeneratorInput) :
  duration = None \/ duration = Some 0 ->
  let g := new_generator collector_url in
  length (fst (run_generator g duration start_time inputs)) = length inputs
  /\ ~ In LogGeneratorStopped (snd (run_generator g duration start_time inputs)).
Proof.
  intros Hd. apply generator_passes_unlimited. exact Hd.
Qed.

Lemma zero_or_missing_duration_never_stops_witness :
  length (fst (run_generator (new_generator "http://localhost:4318/v1/metrics")
                 (Some 0) 0
                 [{| clock := 1000; batch_timestamp := 1; tape := [];
                     post := None |}]))
  = 1%nat.
Proof.
  destruct (zero_or_missing_duration_never_stops
              "http://localhost:4318/v1/metrics" (Some 0) 0
              [{| clock := 1000; batch_timestamp := 1; tape := [];
                  post := None |}]) as [H _].
  - right. reflexivity.
  - exact H.
Defined.

(** X25.  With a duration that is not zero the loop posts a batch at every
    pass that starts before the duration has elapsed and ends at the first
    pass that starts at or after it, without posting then or later. *)
Theorem duration_ends_the_generator (collector_url : string) (d : Z)
    (start_time : Q) (before after : list GeneratorInput)
    (stop : GeneratorInput) :
  d <> 0 ->
  Forall (fun input => (clock input - start_time < inject_Z d)%Q) before ->
  (inject_Z d <= clock stop - start_time)%Q ->
  let g := new_generator collector_url in
  length (fst (run_generator g (Some d) start_time (before ++ stop :: after)))
  = length before
  /\ last (snd (run_generator g (Some d) start_time (before ++ stop :: after)))
     = Some LogGeneratorStopped.
Proof.
  intros Hd Hbefore Hstop. cbv zeta.
  generalize (new_generator collector_url) as g. intros g.
  unfold run_generator. generalize 0 as iteration.
  apply Z.eqb_neq in Hd.
  induction Hbefore as [|input rest Hin Hrest IH]; intros iteration.
  - cbn [app generator_passes]. unfold duration_reached.
    rewrite Hd. apply Qle_bool_iff in Hstop.
    rewrite Hstop. split; reflexivity.
  - cbn [app generator_passes].
    assert (E : duration_reached (Some d) start_time input = false).
    { unfold duration_reached. rewrite Hd. apply Qle_bool_false in Hin.
      now rewrite Hin. }
    rewrite E.
    destruct (generate_phoenix_metrics g (batch_timestamp input) (tape input))
      as [metrics tape'].
    destruct (send_metrics_to_collector (post input) metrics) as [payload sent].
    destruct (IH (iteration + 1)) as [I1 I2].
    destruct (generator_passes g (Some d) start_time (iteration + 1)
                (rest ++ stop :: after)) as [payloads log].
    cbn [fst snd length] in *. split; [now rewrite I1|].
    destruct log as [|e log]; [discriminate I2|].
    cbn [app]. rewrite !last_cons_cons. exact I2.
Qed.

Lemma duration_ends_the_generator_witness :
  length (fst (run_generator (new_generator "http://localhost:4318/v1/metrics")
                 (Some 60) 100
                 ([{| clock := 100; batch_timestamp := 1; tape := [];
                      post := None |}]
                  ++ {| clock := 160; batch_timestamp := 2; tape := [];
                        post := None |} :: [])))
  = 1%nat.
Proof.
  destruct (duration_ends_the_generator
              "http://localhost:4318/v1/metrics" 60 100
              [{| clock := 100; batch_timestamp := 1; tape := [];
                  post := None |}]
              []
              {| clock := 160; batch_timestamp := 2; tape := [];
                 post := None |}) as [H _].
  - discriminate.
  - repeat constructor.
  - discriminate.
  - exact H.
Defined.

(** ** The demo *)

Lemma check_endpoints_spec (http : string -> option Z)
    (endpoints : list (string * string)) :
  forall all_healthy : bool,
    fst (check_endpoints http endpoints all_healthy)
    = all_healthy
      && forallb (fun endpoint => bool_decide (http (snd endpoint) = Some 200))
           endpoints
    /\ length (snd (check_endpoints http endpoints all_healthy))
       = length endpoints.
Proof.
  induction endpoints as [|[name url] rest IH]; intros all_healthy.
  - cbn. now rewrite andb_true_r.
  - cbn [check_endpoints forallb snd length].
    destruct (http url) as [status|] eqn:E.
    + destruct (status =? 200) eqn:Es.
      * apply Z.eqb_eq in Es. subst status.
        destruct (IH all_healthy) as [I1 I2].
        destruct (check_endpoints http rest all_healthy) as [r l].
        cbn [fst snd length] in *. rewrite I1, I2.
        rewrite bool_decide_eq_true_2 by reflexivity. split; reflexivity.
      * apply Z.eqb_neq in Es.
        destruct (IH false) as [I1 I2].
        destruct (check_endpoints http rest false) as [r l].
        cbn [fst snd length] in *. rewrite I1, I2.
        rewrite bool_decide_eq_false_2 by congruence.
        rewrite andb_false_r. split; reflexivity.
    + destruct (IH false) as [I1 I2].
      destruct (check_endpoints http rest false) as [r l].
      cbn [fst snd length] in *. rewrite I1, I2.
      rewrite bool_decide_eq_false_2 by congruence.
      rewrite andb_false_r. split; reflexivity.
Qed.

(** X26.  The health check answers "healthy" exactly when every one of the
    six endpoints answers with status 200, and it does not stop at the
    first failure: each endpoint is requested and gets its line in the
    log. *)
Theorem health_check_needs_every_endpoint (http : string -> option Z) :
  (fst (check_system_health http) = true
   <-> forall name url, In (name, url) health_endpoints -> http url = Some 200)
  /\ length (snd (check_system_health http)) = 7%nat.
Proof.
  unfold check_system_health.
  destruct (check_endpoints_spec http health_endpoints true) as [H1 H2].
  destruct (check_endpoints http health_endpoints true) as [r l].
  cbn [fst snd length] in *. split; [|now rewrite H2].
  rewrite H1. cbn [andb]. rewrite forallb_forall. split.
  - intros H name url Hin. specialize (H (name, url) Hin).
    now apply bool_decide_eq_true_1 in H.
  - intros H [name url] Hin. apply bool_decide_eq_true_2. cbn [snd]. eauto.
Qed.

(** X27.  For a pipeline that answers with status 200 the demo's statistic
    is the observer's total of qualifying lines for the same text, so it is
    never below the observer's count of distinct series; for any other
    status, and when the request fails, it is 0. *)
Theorem pipeline_stat_is_observer_total (status_code : Z) (text : string)
    (t : Z) :
  (exists cardinality_data,
     get_cardinality_metrics (Some text) t = Some cardinality_data
     /\ pipeline_stat (Some (200, text)) = total_metrics cardinality_data
     /\ cardinality_count cardinality_data <= pipeline_stat (Some (200, text)))
  /\ (status_code <> 200 -> pipeline_stat (Some (status_code, text)) = 0)
  /\ pipeline_stat None = 0.
Proof.
  split; [|split].
  - destruct (sample_counts_facts text t) as (d & Hd & Hc & _).
    exists d. split; [exact Hd|].
    rewrite get_cardinality_metrics_eq in Hd. injection Hd as <-.
    cbn [total_metrics cardinality_count pipeline_stat] in *.
    change (200 =? 200) with true. cbv iota. lia.
  - intros Hs. unfold pipeline_stat. apply Z.eqb_neq in Hs. now rewrite Hs.
  - reflexivity.
Qed.
